(** * Exam Generator API: a shallow embedding of the request pipeline

    The development follows the layout of the repository:

    - [Py]            the Python values and built-ins the code relies on
                      (strings as sequences of code points, [str.strip],
                      [str.join], [chr], the four text codecs);
    - [Effects]       exceptions, the event log and the monad in which the
                      services run;
    - [Schemas]       app/schemas/exam.py and app/schemas/file.py;
    - [FileService]   app/services/file_service.py;
    - [GeminiService] app/services/gemini_service.py;
    - [Main]          app/main.py;
    - [Http], [Demo]  status codes and a concrete world for worked examples;
    - [Reading], [Layout], [Boundary]
                      the vocabulary of the specification for the document
                      extractor, the export renderer and the request
                      orchestrator;

    - [Notions]       further notions used by the properties of the code
                      as a whole.

    Definitions come first; the properties of the specification are proved
    in the second half of the file ([TxtExtraction], [PdfExtraction],
    [ExportRenderer], [GeneratePath], [Examples]), followed by the
    properties of the extractor, the renderer, the generation client and
    the endpoints as a whole ([ExtractorFacts], [TxtFacts],
    [RendererFacts], [EndpointFacts]). *)

From Stdlib Require Import List NArith ZArith Bool Lia.
From Stdlib Require Import Strings.String Strings.Ascii Strings.Byte.
From Stdlib Require Import Numbers.DecimalString.
Import ListNotations.
Local Open Scope string_scope.
Local Open Scope list_scope.

Set Implicit Arguments.

(* ===================================================================== *)
(** * Python values and built-ins *)
(* ===================================================================== *)

Module Py.

(** A Python [str] is a sequence of Unicode code points. *)
Definition str := list N.

(** A Python [bytes] object. *)
Definition bytes := list byte.

(** String literals of the source are ASCII; [lit] reads one as a [str]. *)
Definition lit (s : string) : str :=
  List.map N_of_ascii (list_ascii_of_string s).

(** The line feed written as a backslash followed by n in the source. *)
Definition nl : str := [10%N].

Fixpoint str_eqb (a b : str) : bool :=
  match a, b with
  | [], [] => true
  | x :: a', y :: b' => N.eqb x y && str_eqb a' b'
  | _, _ => false
  end.

(** Truth value of a string: the empty string is false. *)
Definition truthy (s : str) : bool :=
  match s with [] => false | _ :: _ => true end.

(** [str.isspace] on one code point (CPython's [_PyUnicode_IsWhitespace]):
    the characters removed by [str.strip()] without argument. *)
Definition isspace (c : N) : bool :=
  ((9 <=? c) && (c <=? 13) || (28 <=? c) && (c <=? 31) || (c =? 32)
   || (c =? 133) || (c =? 160) || (c =? 5760)
   || (8192 <=? c) && (c <=? 8202)
   || (c =? 8232) || (c =? 8233) || (c =? 8239) || (c =? 8287)
   || (c =? 12288))%N.

Fixpoint lstrip (s : str) : str :=
  match s with
  | [] => []
  | c :: s' => if isspace c then lstrip s' else s
  end.

Definition rstrip (s : str) : str := rev (lstrip (rev s)).

(** [s.strip()] *)
Definition strip (s : str) : str := rstrip (lstrip s).

(** [sep.join(parts)] *)
Fixpoint join (sep : str) (parts : list str) : str :=
  match parts with
  | [] => []
  | [p] => p
  | p :: rest => p ++ sep ++ join sep rest
  end.

(** [c * n] for a one-character string [c]. *)
Definition times (c : string) (n : nat) : str :=
  List.concat (repeat (lit c) n).

(** [s.replace(old, new)] for one-character [old] and [new]. *)
Definition replace_char (old new : N) (s : str) : str :=
  List.map (fun c => if N.eqb c old then new else c) s.

(** [s.endswith(suffix)] *)
Fixpoint startswith (s prefix : str) : bool :=
  match prefix, s with
  | [], _ => true
  | p :: prefix', c :: s' => N.eqb c p && startswith s' prefix'
  | _ :: _, [] => false
  end.

Definition endswith (s suffix : str) : bool :=
  startswith (rev s) (rev suffix).

(** [c in s] for a one-character [c]. *)
Definition contains_char (c : N) (s : str) : bool :=
  existsb (N.eqb c) s.

(** [s.split(c)[-1]]: the part of [s] after the last occurrence of the
    character [c] (the whole of [s] when [c] does not occur). *)
Fixpoint last_segment_aux (c : N) (s acc : str) : str :=
  match s with
  | [] => rev acc
  | x :: s' => if N.eqb x c then last_segment_aux c s' []
               else last_segment_aux c s' (x :: acc)
  end.

Definition last_segment (c : N) (s : str) : str := last_segment_aux c s [].

(** [str(n)] and the f-string rendering of an [int]. *)
Definition str_of_int (z : Z) : str :=
  lit (NilZero.string_of_int (Z.to_int z)).

(** [chr(i)]: defined on [0 .. 0x10FFFF], a [ValueError] elsewhere. *)
Definition chr (i : Z) : option N :=
  if ((0 <=? i) && (i <=? 1114111))%Z then Some (Z.to_N i) else None.

(** [repr] of a list of strings free of quotes and escapes, as an f-string
    prints it. *)
Definition repr_str_list (l : list str) : str :=
  lit "[" ++ join (lit ", ") (List.map (fun s => lit "'" ++ s ++ lit "'") l)
          ++ lit "]".

(** ** Text codecs

    The decoders of the standard library behind [bytes.decode(name)], in
    strict mode: [None] stands for [UnicodeDecodeError]. *)

Definition is_cont (b : N) : bool := ((128 <=? b) && (b <=? 191))%N.

Definition in_range (lo hi b : N) : bool := ((lo <=? b) && (b <=? hi))%N.

(** Strict UTF-8: shortest form only, no surrogates, at most U+10FFFF. *)
Fixpoint utf8_decode_N (bs : list N) : option str :=
  match bs with
  | [] => Some []
  | b0 :: r0 =>
    if (b0 <? 128)%N then option_map (cons b0) (utf8_decode_N r0)
    else if in_range 194 223 b0 then
      match r0 with
      | b1 :: r1 =>
        if is_cont b1
        then option_map (cons ((b0 - 192) * 64 + (b1 - 128))%N)
                        (utf8_decode_N r1)
        else None
      | _ => None
      end
    else if in_range 224 239 b0 then
      match r0 with
      | b1 :: b2 :: r2 =>
        let lo := if (b0 =? 224)%N then 160%N else 128%N in
        let hi := if (b0 =? 237)%N then 159%N else 191%N in
        if in_range lo hi b1 && is_cont b2
        then option_map
               (cons ((b0 - 224) * 4096 + (b1 - 128) * 64 + (b2 - 128))%N)
               (utf8_decode_N r2)
        else None
      | _ => None
      end
    else if in_range 240 244 b0 then
      match r0 with
      | b1 :: b2 :: b3 :: r3 =>
        let lo := if (b0 =? 240)%N then 144%N else 128%N in
        let hi := if (b0 =? 244)%N then 143%N else 191%N in
        if in_range lo hi b1 && is_cont b2 && is_cont b3
        then option_map
               (cons ((b0 - 240) * 262144 + (b1 - 128) * 4096
                      + (b2 - 128) * 64 + (b3 - 128))%N)
               (utf8_decode_N r3)
        else None
      | _ => None
      end
    else None
  end.

Definition utf8_decode (bs : bytes) : option str :=
  utf8_decode_N (List.map Byte.to_N bs).

(** Latin-1 (ISO 8859-1): byte [b] is code point [b]. *)
Definition latin1_decode (bs : bytes) : option str :=
  Some (List.map Byte.to_N bs).

(** Windows-1252: Latin-1 except on 0x80..0x9F, where five bytes are
    undefined. *)
Definition cp1252_char (b : N) : option N :=
  (if in_range 128 159 b then
     nth (N.to_nat (b - 128))
       [Some 8364; None; Some 8218; Some 402; Some 8222; Some 8230;
        Some 8224; Some 8225; Some 710; Some 8240; Some 352; Some 8249;
        Some 338; None; Some 381; None;
        None; Some 8216; Some 8217; Some 8220; Some 8221; Some 8226;
        Some 8211; Some 8212; Some 732; Some 8482; Some 353; Some 8250;
        Some 339; None; Some 382; Some 376] None
   else Some b)%N.

Fixpoint cp1252_decode_N (bs : list N) : option str :=
  match bs with
  | [] => Some []
  | b :: r =>
    match cp1252_char b with
    | Some c => option_map (cons c) (cp1252_decode_N r)
    | None => None
    end
  end.

Definition cp1252_decode (bs : bytes) : option str :=
  cp1252_decode_N (List.map Byte.to_N bs).

(** Codec lookup by name, for the names the source uses. *)
Definition lookup_codec (name : str) : option (bytes -> option str) :=
  if str_eqb name (lit "utf-8") then Some utf8_decode
  else if str_eqb name (lit "latin-1") then Some latin1_decode
  else if str_eqb name (lit "cp1252") then Some cp1252_decode
  else if str_eqb name (lit "iso-8859-1") then Some latin1_decode
  else None.

End Py.

Import Py.

(* ===================================================================== *)
(** * Exceptions, events and the service monad *)
(* ===================================================================== *)

Module Effects.

(** The exception classes the handlers of the source tell apart.
    [HTTPException] (FastAPI/Starlette) derives from [Exception] and not
    from [RuntimeError]; [OtherError] stands for every other subclass of
    [Exception] ([JSONDecodeError], [ValidationError], [AttributeError],
    [TypeError], ...), named by its class. *)
Inductive exn : Type :=
| HTTPException (status_code : Z) (detail : str)
| RuntimeError (msg : str)
| APIError (code : Z) (message : str)
| UnicodeDecodeError (encoding : str)
| OtherError (cls : str) (msg : str).

(** [str(e)] as interpolated by the f-strings of the handlers.  Starlette
    prints an [HTTPException] as its status code, a colon and its detail;
    the other classes print the message they carry (abridged for
    [UnicodeDecodeError], which no handler of the source prints). *)
Definition str_of_exn (e : exn) : str :=
  match e with
  | HTTPException c d => str_of_int c ++ lit ": " ++ d
  | RuntimeError m => m
  | APIError c m => str_of_int c ++ lit " " ++ m
  | UnicodeDecodeError enc =>
      lit "'" ++ enc ++ lit "' codec can't decode bytes"
  | OtherError _ m => m
  end.

Inductive result (A : Type) : Type :=
| Raise (e : exn)
| Return (a : A).
Arguments Raise {A} e.
Arguments Return {A} a.

(** What the services do to the outside world, in order. *)
Inductive event : Type :=
| ReadFileCalled (name : option str)   (* FileService.read_file entered *)
| FileClosed                           (* await file.close() *)
| GeminiCalled (prompt : str).         (* client.models.generate_content *)

Definition trace := list event.

(** Computations that may raise and that log events; the log survives an
    exception. *)
Definition M (A : Type) : Type := trace -> result A * trace.

Definition ret {A} (a : A) : M A := fun t => (Return a, t).

Definition raise {A} (e : exn) : M A := fun t => (Raise e, t).

Definition bind {A B} (m : M A) (k : A -> M B) : M B :=
  fun t => match m t with
           | (Return a, t') => k a t'
           | (Raise e, t') => (Raise e, t')
           end.

Definition emit (ev : event) : M unit := fun t => (Return tt, t ++ [ev]).

(** A pure computation that may raise. *)
Definition lift {A} (r : result A) : M A := fun t => (r, t).

(** [try: m  except ... as e: h e] where [h] re-raises what no clause of
    the source catches. *)
Definition try_except {A} (m : M A) (h : exn -> M A) : M A :=
  fun t => match m t with
           | (Return a, t') => (Return a, t')
           | (Raise e, t') => h e t'
           end.

(** [try: m  finally: f] *)
Definition try_finally {A} (m : M A) (f : M unit) : M A :=
  fun t => match m t with
           | (r, t') =>
             match f t' with
             | (Return _, t'') => (r, t'')
             | (Raise e, t'') => (Raise e, t'')
             end
           end.

Definition run {A} (m : M A) : result A * trace := m [].

End Effects.

Import Effects.

Declare Scope py_scope.
Delimit Scope py_scope with py.
Notation "x <- m ;; k" := (bind m (fun x => k))
  (at level 61, m at next level, right associativity) : py_scope.
Notation "m ;;; k" := (bind m (fun _ => k))
  (at level 61, right associativity) : py_scope.
Local Open Scope py_scope.

(** Pure computations that may raise, such as the rendering of an export. *)
Definition rbind {A B} (r : result A) (k : A -> result B) : result B :=
  match r with
  | Return a => k a
  | Raise e => Raise e
  end.

Notation "x <~ r ;; k" := (rbind r (fun x => k))
  (at level 61, r at next level, right associativity) : py_scope.

(* ===================================================================== *)
(** * app/schemas *)
(* ===================================================================== *)

Module Schemas.

(** ** app/schemas/exam.py *)

Inductive Difficulty : Type := Easy | Medium | Hard | Mixed.

Inductive QuestionType : Type := MCQ | TrueFalse | ShortAnswer | Essay.

(** The value of each member of the two [str] enumerations. *)
Definition Difficulty_value (d : Difficulty) : str :=
  match d with
  | Easy => lit "Easy"
  | Medium => lit "Medium"
  | Hard => lit "Hard"
  | Mixed => lit "Mixed"
  end.

Definition QuestionType_value (t : QuestionType) : str :=
  match t with
  | MCQ => lit "Multiple Choice"
  | TrueFalse => lit "True/False"
  | ShortAnswer => lit "Short Answer"
  | Essay => lit "Essay"
  end.

Definition Difficulty_name (d : Difficulty) : str :=
  lit "Difficulty." ++ Difficulty_value d.

Definition QuestionType_name (t : QuestionType) : str :=
  lit "QuestionType." ++
  match t with
  | MCQ => lit "MCQ"
  | TrueFalse => lit "TrueFalse"
  | ShortAnswer => lit "ShortAnswer"
  | Essay => lit "Essay"
  end.

(** How an f-string prints a member of a [str]-mixin enumeration depends on
    the interpreter: its value on older ones, [Class.MEMBER] on newer ones.
    Comparison with [==] and [str.join] always see the value. *)
Inductive EnumFormat : Type := FormatValue | FormatMember.

Definition format_QuestionType (f : EnumFormat) (t : QuestionType) : str :=
  match f with
  | FormatValue => QuestionType_value t
  | FormatMember => QuestionType_name t
  end.

Definition format_Difficulty (f : EnumFormat) (d : Difficulty) : str :=
  match f with
  | FormatValue => Difficulty_value d
  | FormatMember => Difficulty_name d
  end.

(** The union [Question]: each variant fixes its [type] literal, so the
    constructor is the discriminant.  The first three arguments are the
    fields of [QuestionBase]: [id], [difficulty] (a question carries
    [Easy], [Medium] or [Hard]) and [question]. *)
Inductive Question : Type :=
| MultipleChoiceQuestion (id : Z) (difficulty : Difficulty) (question : str)
    (options : list str) (correct_answer : str) (explanation : str)
| TrueFalseQuestion (id : Z) (difficulty : Difficulty) (question : str)
    (correct_answer : str) (explanation : str)
| ShortAnswerQuestion (id : Z) (difficulty : Difficulty) (question : str)
    (sample_answer : str)
| EssayQuestion (id : Z) (difficulty : Difficulty) (question : str)
    (guidelines : str).

Definition q_id (q : Question) : Z :=
  match q with
  | MultipleChoiceQuestion i _ _ _ _ _ | TrueFalseQuestion i _ _ _ _
  | ShortAnswerQuestion i _ _ _ | EssayQuestion i _ _ _ => i
  end.

Definition q_type (q : Question) : QuestionType :=
  match q with
  | MultipleChoiceQuestion _ _ _ _ _ _ => MCQ
  | TrueFalseQuestion _ _ _ _ _ => TrueFalse
  | ShortAnswerQuestion _ _ _ _ => ShortAnswer
  | EssayQuestion _ _ _ _ => Essay
  end.

Definition q_difficulty (q : Question) : Difficulty :=
  match q with
  | MultipleChoiceQuestion _ d _ _ _ _ | TrueFalseQuestion _ d _ _ _
  | ShortAnswerQuestion _ d _ _ | EssayQuestion _ d _ _ => d
  end.

Definition q_question (q : Question) : str :=
  match q with
  | MultipleChoiceQuestion _ _ t _ _ _ | TrueFalseQuestion _ _ t _ _
  | ShortAnswerQuestion _ _ t _ | EssayQuestion _ _ t _ => t
  end.

(** Attribute access on a question: a variant without the field raises
    [AttributeError]. *)
Definition no_attribute {A} (name : string) : result A :=
  Raise (OtherError (lit "AttributeError")
           (lit "object has no attribute '" ++ lit name ++ lit "'")).

Definition q_options (q : Question) : result (list str) :=
  match q with
  | MultipleChoiceQuestion _ _ _ o _ _ => Return o
  | _ => no_attribute "options"
  end.

Definition q_correct_answer (q : Question) : result str :=
  match q with
  | MultipleChoiceQuestion _ _ _ _ a _ | TrueFalseQuestion _ _ _ a _ =>
      Return a
  | _ => no_attribute "correct_answer"
  end.

Definition q_sample_answer (q : Question) : result str :=
  match q with
  | ShortAnswerQuestion _ _ _ a => Return a
  | _ => no_attribute "sample_answer"
  end.

Definition q_guidelines (q : Question) : result str :=
  match q with
  | EssayQuestion _ _ _ g => Return g
  | _ => no_attribute "guidelines"
  end.

Record Exam : Type := {
  exam_id : option Z;
  exam_title : str;
  total_questions : Z;
  difficulty : str;
  estimated_completion_minutes : Z;
  question_types : list QuestionType;
  questions : list Question
}.

(** ** app/schemas/file.py *)

Inductive InputFileType : Type := DOCX | PDF | TEXT.

Definition InputFileType_members : list InputFileType := [DOCX; PDF; TEXT].

Definition InputFileType_value (t : InputFileType) : str :=
  match t with
  | DOCX => lit "docx"
  | PDF => lit "pdf"
  | TEXT => lit "txt"
  end.

Inductive OutputFileType : Type := DOC | OUT_TEXT.

Definition OutputFileType_members : list OutputFileType := [DOC; OUT_TEXT].

Definition OutputFileType_value (t : OutputFileType) : str :=
  match t with
  | DOC => lit "doc"
  | OUT_TEXT => lit "txt"
  end.

End Schemas.

Import Schemas.

(* ===================================================================== *)
(** * External collaborators *)
(* ===================================================================== *)

(** A value produced by [json.loads]. *)
#[warnings="-register-all"]
Inductive json : Type :=
| JNull
| JBool (b : bool)
| JNum (repr : str)
| JStr (s : str)
| JArr (items : list json)
| JObj (members : list (str * json)).

(** An uploaded file ([fastapi.UploadFile]): its declared name and the
    bytes [await file.read()] returns. *)
Record UploadFile : Type := {
  filename : option str;
  content : bytes
}.

(** The response of the generative model, reduced to its [parsed]
    attribute ([None] when the payload is empty or cannot be parsed). *)
Record GenerateContentResponse (Parsed : Type) : Type := {
  parsed : option Parsed
}.

(** The libraries and services the repository calls and does not define.
    Each may raise; none is constrained further. *)
Record World : Type := {
  (** [str.lower] *)
  str_lower : str -> str;
  (** [json.loads] *)
  json_loads : str -> result json;
  (** python-docx: [Document(path).paragraphs], each paragraph by its
      [text] *)
  docx_paragraphs : bytes -> result (list str);
  (** PyPDF2: [PdfReader(stream).pages] and [page.extract_text()] *)
  Page : Type;
  pdf_pages : bytes -> result (list Page);
  extract_text : Page -> result str;
  (** google-genai: [client.models.generate_content] on a prompt *)
  Parsed : Type;
  generate_content : str -> result (GenerateContentResponse Parsed);
  (** pydantic: [Exam.model_validate] *)
  model_validate : Parsed -> result Exam
}.

(* ===================================================================== *)
(** * app/services/file_service.py *)
(* ===================================================================== *)

Module FileService.

(** What [StreamingResponse(buffer, media_type=..., headers=...)] holds:
    the text of the buffer, the declared media type and the headers. *)
Record StreamingResponse : Type := {
  body : str;
  media_type : option str;
  headers : list (str * str)
}.

(** [s.encode("latin-1")] succeeds on the code points up to U+00FF. *)
Definition latin1_encodable (s : str) : bool :=
  forallb (fun c => (c <=? 255)%N) s.

Definition HeaderEncodeError : exn :=
  OtherError (lit "UnicodeEncodeError")
    (lit "'latin-1' codec can't encode characters").

(** The constructor [StreamingResponse(content, media_type=...,
    headers=...)]: Starlette encodes the name and the value of every
    header, and the media type of the content-type header, as Latin-1
    when the response is built, and raises [UnicodeEncodeError] on a
    character above U+00FF. *)
Definition new_StreamingResponse (content : str) (media : option str)
    (hdrs : list (str * str)) : result StreamingResponse :=
  if forallb (fun kv => latin1_encodable (fst kv) && latin1_encodable (snd kv))
       hdrs
     && match media with
        | Some m => latin1_encodable m
        | None => true
        end
  then Return {| body := content; media_type := media; headers := hdrs |}
  else Raise HeaderEncodeError.

(** [buffer.write(s)] on a [StringIO]. *)
Definition write (s : str) (buffer : str) : str := buffer ++ s.

(** [for i, option in enumerate(q.options): buffer.write(...)], from
    index [i] on. *)
Fixpoint write_options (i : Z) (options : list str) (buffer : str)
  : result str :=
  match options with
  | [] => Return buffer
  | option :: rest =>
    match chr (65 + i) with
    | Some letter =>
        write_options (i + 1) rest
          (write ([letter] ++ lit ". " ++ option ++ nl) buffer)
    | None =>
        Raise (OtherError (lit "ValueError")
                 (lit "chr() arg not in range(0x110000)"))
    end
  end.

Section Render.

Variable fmt : EnumFormat.

(** [q.type == label] *)
Definition type_is (q : Question) (label : string) : bool :=
  str_eqb (QuestionType_value (q_type q)) (lit label).

(** The body of the first loop over [exam.questions]. *)
Definition write_question (q : Question) (buffer : str) : result str :=
  let buffer :=
    write (lit "Question " ++ str_of_int (q_id q) ++ lit " ["
           ++ format_QuestionType fmt (q_type q) ++ lit " - "
           ++ format_Difficulty fmt (q_difficulty q) ++ lit "]" ++ nl
           ++ q_question q ++ nl ++ nl) buffer in
  buffer <~ (if type_is q "Multiple Choice"
             then options <~ q_options q ;; write_options 0 options buffer
             else Return buffer) ;;
  buffer <~ (if type_is q "Essay"
             then guidelines <~ q_guidelines q ;;
                  Return (write (lit "Guidelines: " ++ guidelines ++ nl)
                            buffer)
             else Return buffer) ;;
  Return (write (nl ++ times "-" 40 ++ nl ++ nl) buffer).

Fixpoint write_questions (qs : list Question) (buffer : str) : result str :=
  match qs with
  | [] => Return buffer
  | q :: rest => buffer <~ write_question q buffer ;;
                 write_questions rest buffer
  end.

(** The body of the second loop over [exam.questions]. *)
Definition write_answer (q : Question) (buffer : str) : result str :=
  buffer <~ (if type_is q "Multiple Choice" || type_is q "True/False"
             then correct_answer <~ q_correct_answer q ;;
                  Return (write (lit "Question " ++ str_of_int (q_id q)
                                 ++ lit ": " ++ correct_answer ++ nl) buffer)
             else Return buffer) ;;
  buffer <~ (if type_is q "Short Answer"
             then sample_answer <~ q_sample_answer q ;;
                  Return (write (lit "Question " ++ str_of_int (q_id q)
                                 ++ lit ": [Sample Answer] " ++ sample_answer
                                 ++ nl) buffer)
             else Return buffer) ;;
  (if type_is q "Essay"
   then Return (write (lit "Question " ++ str_of_int (q_id q)
                       ++ lit ": Not Applicable" ++ nl) buffer)
   else Return buffer).

Fixpoint write_answers (qs : list Question) (buffer : str) : result str :=
  match qs with
  | [] => Return buffer
  | q :: rest => buffer <~ write_answer q buffer ;;
                 write_answers rest buffer
  end.

(** The text written to the buffer, from its creation to [buffer.seek(0)]. *)
Definition render (exam : Exam) : result str :=
  let buffer := [] in
  let buffer := write (lit "Exam Title: " ++ exam_title exam ++ nl) buffer in
  let buffer :=
    write (lit "Questions: " ++ str_of_int (total_questions exam) ++ nl)
      buffer in
  let buffer := write (lit "Difficulty: " ++ difficulty exam ++ nl) buffer in
  let buffer :=
    write (lit "Estimated Time: "
           ++ str_of_int (estimated_completion_minutes exam)
           ++ lit " minutes" ++ nl) buffer in
  let buffer :=
    write (lit "Types: "
           ++ join (lit ", ")
                (List.map QuestionType_value (question_types exam)) ++ nl)
      buffer in
  let buffer := write (nl ++ times "=" 40 ++ nl ++ nl) buffer in
  buffer <~ write_questions (questions exam) buffer ;;
  let buffer :=
    write (nl ++ lit "ANSWER KEY" ++ nl ++ times "=" 40 ++ nl ++ nl) buffer in
  write_answers (questions exam) buffer.

Definition mime_map : list (str * str) :=
  [ (lit "txt", lit "text/plain");
    (lit "doc", lit "application/msword") ].

(** [d.get(key)] *)
Fixpoint dict_get (d : list (str * str)) (key : str) : option str :=
  match d with
  | [] => None
  | (k, v) :: d' => if str_eqb k key then Some v else dict_get d' key
  end.

Definition create_file_stream (exam : Exam) (file_type : str)
  : result StreamingResponse :=
  buffer <~ render exam ;;
  let filename :=
    replace_char 32 95 (exam_title exam) ++ lit "." ++ file_type in
  new_StreamingResponse buffer (dict_get mime_map file_type)
    [ (lit "Content-Disposition", lit "attachment; filename=" ++ filename) ].

End Render.

(** ** Extraction *)

Section Extraction.

Variable W : World.

(** [content.decode(encoding)] *)
Definition decode (encoding : str) (content : bytes) : result str :=
  match lookup_codec encoding with
  | Some codec =>
    match codec content with
    | Some text => Return text
    | None => Raise (UnicodeDecodeError encoding)
    end
  | None =>
    Raise (OtherError (lit "LookupError") (lit "unknown encoding: " ++ encoding))
  end.

Definition encodings : list str :=
  [lit "utf-8"; lit "latin-1"; lit "cp1252"; lit "iso-8859-1"].

(** One turn of the loop of [_read_txt_file]: [Some text] when the turn
    returns [text], [None] when the loop goes on. *)
Definition try_encoding (encoding : str) (content : bytes)
  : M (option str) :=
  try_except
    (text <- lift (decode encoding content) ;;
     if truthy (strip text) then ret (Some text) else ret None)
    (fun e => match e with
              | UnicodeDecodeError _ => ret None
              | _ => raise e
              end).

Fixpoint read_txt_loop (encs : list str) (content : bytes) : M str :=
  match encs with
  | [] => raise (HTTPException 400 (lit "Could not decode text file"))
  | encoding :: rest =>
      r <- try_encoding encoding content ;;
      match r with
      | Some text => ret text
      | None => read_txt_loop rest content
      end
  end.

Definition _read_txt_file (file : UploadFile) : M str :=
  let content := content file in
  read_txt_loop encodings content.

(** The temporary file that carries the bytes to python-docx is written
    and unlinked within the call; the parse is [docx_paragraphs]. *)
Definition _read_docx_file (file : UploadFile) : M str :=
  let content := content file in
  paragraphs <- lift (docx_paragraphs W content) ;;
  let text_content := join nl paragraphs in
  if negb (truthy (strip text_content))
  then raise (HTTPException 400 (lit "No text content found in DOCX file"))
  else ret text_content.

(** [for page in reader.pages: ...] with [text_pages] as accumulator. *)
Fixpoint collect_pages (pages : list (Page W)) (text_pages : list str)
  : result (list str) :=
  match pages with
  | [] => Return text_pages
  | page :: rest =>
      page_text <~ extract_text W page ;;
      collect_pages rest
        (if truthy page_text then text_pages ++ [page_text] else text_pages)
  end.

Definition _read_pdf_file (file : UploadFile) : M str :=
  let content := content file in
  try_except
    (pages <- lift (pdf_pages W content) ;;
     if (List.length pages =? 0)%nat
     then raise (HTTPException 400 (lit "PDF file has no pages"))
     else
       text_pages <- lift (collect_pages pages []) ;;
       let full_text := join nl text_pages in
       if negb (truthy (strip full_text))
       then raise (HTTPException 400
                     (lit "No text content found in PDF. File might be image-based or encrypted."))
       else ret full_text)
    (fun e => match e with
              | HTTPException _ _ => raise e
              | _ => raise (HTTPException 500
                              (lit "Failed to process PDF file: "
                               ++ str_of_exn e))
              end).

(** [FileService] defines no [_read_doc_file]; looking it up fails. *)
Definition _read_doc_file (file : UploadFile) : M str :=
  raise (OtherError (lit "AttributeError")
           (lit "type object 'FileService' has no attribute '_read_doc_file'")).

Definition read_file (file : UploadFile) : M str :=
  emit (ReadFileCalled (filename file)) ;;;
  match filename file with
  | None => raise (HTTPException 400 (lit "No file provided"))
  | Some name =>
    if negb (truthy name)
    then raise (HTTPException 400 (lit "No file provided"))
    else
      let filename := str_lower W name in
      if negb (contains_char 46 filename)
      then raise (HTTPException 400 (lit "File must have an extension"))
      else
        let extension := last_segment 46 filename in
        try_finally
          (try_except
             (if str_eqb extension (lit "txt") then _read_txt_file file
              else if str_eqb extension (lit "docx") then _read_docx_file file
              else if str_eqb extension (lit "doc") then _read_doc_file file
              else if str_eqb extension (lit "pdf") then _read_pdf_file file
              else raise (HTTPException 400
                            (lit "Unsupported file format: " ++ extension
                             ++ lit ". Supported: txt, docx, doc, pdf")))
             (fun e => match e with
                       | HTTPException _ _ => raise e
                       | _ => raise (HTTPException 500
                                       (lit "Error processing file: "
                                        ++ str_of_exn e))
                       end))
          (emit FileClosed)
  end.

End Extraction.

End FileService.

(* ===================================================================== *)
(** * app/services/gemini_service.py *)
(* ===================================================================== *)

Module GeminiService.

Definition type_error {A} (msg : string) : result A :=
  Raise (OtherError (lit "TypeError") (lit msg)).

(** The items a generator expression draws from a parsed JSON value: the
    elements of an array, the characters of a string, the keys of an
    object; the other values are not iterable. *)
Definition iterate (v : json) : result (list json) :=
  match v with
  | JArr items => Return items
  | JStr s => Return (List.map (fun c => JStr [c]) s)
  | JObj members => Return (List.map (fun kv => JStr (fst kv)) members)
  | _ => type_error "object is not iterable"
  end.

(** [str.join] accepts strings only. *)
Fixpoint expect_strs (items : list json) : result (list str) :=
  match items with
  | [] => Return []
  | JStr s :: rest => l <~ expect_strs rest ;; Return (s :: l)
  | _ :: _ => type_error "sequence item: expected str instance"
  end.

Definition build_prompt (num_questions : Z) (difficulty : str)
    (question_types : json) (exam_guide : str) (additional_info : str)
  : result str :=
  items <~ iterate question_types ;;
  labels <~ expect_strs items ;;
  Return
    (lit "Given the following exam guide content, generate mock exam questions (see specifications below) with answers. " ++ nl
     ++ lit "- total number of questions: " ++ str_of_int num_questions
     ++ lit " " ++ nl
     ++ lit "- difficulty level: " ++ difficulty ++ lit " " ++ nl
     ++ lit "- question types: " ++ join (lit ", ") labels ++ lit " " ++ nl
     ++ lit "- output format: JSON " ++ nl ++ nl
     ++ lit "- exam guide: " ++ exam_guide ++ lit " " ++ nl
     ++ lit "- additional information: " ++ additional_info ++ lit " " ++ nl
     ++ nl
     ++ lit "Please ensure the output is a valid JSON object strictly conforming to the provided schema.").

Section Service.

Variable W : World.

Definition generate_exam (number_of_questions : Z) (difficulty : str)
    (question_types : json) (exam_guide : str) (additional_info : str)
  : M (GenerateContentResponse (Parsed W)) :=
  try_except
    (prompt <- lift (build_prompt number_of_questions difficulty
                       question_types exam_guide additional_info) ;;
     emit (GeminiCalled prompt) ;;;
     response <- lift (generate_content W prompt) ;;
     ret response)
    (fun e => match e with
              | APIError code message =>
                  raise (RuntimeError
                           (lit "Gemini API error occurred (status "
                            ++ str_of_int code ++ lit "): " ++ message))
              | _ =>
                  raise (RuntimeError
                           (lit "An unexpected error occurred during Gemini API call: "
                            ++ str_of_exn e))
              end).

End Service.

End GeminiService.

(* ===================================================================== *)
(** * app/main.py *)
(* ===================================================================== *)

Module Main.

Definition HTTP_400_BAD_REQUEST : Z := 400.
Definition HTTP_500_INTERNAL_SERVER_ERROR : Z := 500.

(** [if cond: raise e] *)
Definition raise_if (cond : bool) (e : exn) : M unit :=
  if cond then raise e else ret tt.

(** Truth value of [exam_guide_file]: an [UploadFile] is true, [None] is
    false. *)
Definition present (f : option UploadFile) : bool :=
  match f with Some _ => true | None => false end.

(** Truth value of [file.filename]. *)
Definition has_filename (f : UploadFile) : bool :=
  match filename f with Some name => truthy name | None => false end.

Definition supported_extensions : list str :=
  List.map InputFileType_value InputFileType_members.

Section Endpoints.

Variable W : World.

(** POST /v1/exams/generate *)
Definition generate_exam (num_questions : Z) (difficulty : str)
    (question_types : str) (exam_guide_content : str)
    (additional_info : str) (exam_guide_file : option UploadFile)
  : M Exam :=
  try_except
    (parsed_question_types <- lift (json_loads W question_types) ;;
     raise_if (negb (truthy exam_guide_content)
               && negb (present exam_guide_file))
       (HTTPException HTTP_400_BAD_REQUEST
          (lit "Either 'exam_guide_content' or 'exam_guide_file' must be provided.")) ;;;
     raise_if (truthy exam_guide_content && present exam_guide_file)
       (HTTPException HTTP_400_BAD_REQUEST
          (lit "Provide either 'exam_guide_content' OR 'exam_guide_file', not both.")) ;;;
     final_content <-
       match exam_guide_file with
       | Some file =>
           raise_if (negb (has_filename file))
             (HTTPException HTTP_400_BAD_REQUEST
                (lit "File must have a filename with extension.")) ;;;
           let filename_lower :=
             str_lower W (match filename file with
                          | Some name => name
                          | None => []
                          end) in
           raise_if
             (negb (existsb (fun ext => endswith filename_lower
                                          (lit "." ++ ext))
                      supported_extensions))
             (HTTPException HTTP_400_BAD_REQUEST
                (lit "Unsupported file type. Supported: "
                 ++ repr_str_list supported_extensions)) ;;;
           try_except (FileService.read_file W file)
             (fun e => raise (HTTPException HTTP_500_INTERNAL_SERVER_ERROR
                                (lit "Error reading file: " ++ str_of_exn e)))
       | None => ret exam_guide_content
       end ;;
     raise_if (negb (truthy final_content)
               || negb (truthy (strip final_content)))
       (HTTPException HTTP_400_BAD_REQUEST
          (lit "No content found to generate exam from.")) ;;;
     gemini_response <-
       GeminiService.generate_exam W num_questions difficulty
         parsed_question_types final_content additional_info ;;
     match parsed gemini_response with
     | None =>
         raise (HTTPException HTTP_500_INTERNAL_SERVER_ERROR
                  (lit "Gemini API returned an empty or unparseable response."))
     | Some p =>
         generated_exam <- lift (model_validate W p) ;;
         ret generated_exam
     end)
    (fun e => match e with
              | RuntimeError _ =>
                  raise (HTTPException HTTP_500_INTERNAL_SERVER_ERROR
                           (lit "Error generating exam from Gemini: "
                            ++ str_of_exn e))
              | _ =>
                  raise (HTTPException HTTP_500_INTERNAL_SERVER_ERROR
                           (lit "An unexpected error occurred while processing the request: "
                            ++ str_of_exn e))
              end).

End Endpoints.

(** POST /v1/exams/download *)
Definition download_exam (fmt : EnumFormat) (exam : Exam) (file_type : str)
  : result FileService.StreamingResponse :=
  if negb (existsb (str_eqb file_type)
             (List.map OutputFileType_value OutputFileType_members))
  then Raise (HTTPException 400 (lit "Invalid file type"))
  else FileService.create_file_stream fmt exam file_type.

End Main.

(** The status code the client sees: 200 with the returned value, the code
    of an [HTTPException] that leaves the handler (any other exception
    would reach the framework, which answers 500). *)
Module Http.

Definition status_of {A} (r : result A) : Z :=
  match r with
  | Return _ => 200
  | Raise (HTTPException c _) => c
  | Raise _ => 500
  end.

Definition is_4xx (c : Z) : bool := ((400 <=? c) && (c <=? 499))%Z.
Definition is_5xx (c : Z) : bool := ((500 <=? c) && (c <=? 599))%Z.

End Http.

(* ===================================================================== *)
(** * A concrete world for worked examples *)
(* ===================================================================== *)

Module Demo.

(** [str.lower] on ASCII text. *)
Definition ascii_lower (s : str) : str :=
  List.map (fun c => if ((65 <=? c) && (c <=? 90))%N then (c + 32)%N else c) s.

(** [json.loads] on the documents the examples send: the empty array, the
    array of the one string Essay (34 is the double quote), and text that
    is no JSON document. *)
Definition toy_json_loads (s : str) : result json :=
  if str_eqb s (lit "[]") then Return (JArr [])
  else if str_eqb s (lit "[" ++ [34%N] ++ lit "Essay" ++ [34%N] ++ lit "]")
  then Return (JArr [JStr (lit "Essay")])
  else Raise (OtherError (lit "JSONDecodeError")
                (lit "Expecting value: line 1 column 1 (char 0)")).

(** A stand-in for a PDF parser: the pages are the form-feed separated
    parts of the bytes, each read as Latin-1; no bytes, no pages. *)
Fixpoint split_pages (bs : list N) (cur : str) : list str :=
  match bs with
  | [] => [rev cur]
  | b :: r => if (b =? 12)%N then rev cur :: split_pages r []
              else split_pages r (b :: cur)
  end.

Definition toy_pdf_pages (bs : bytes) : result (list str) :=
  match bs with
  | [] => Return []
  | _ => Return (split_pages (List.map Byte.to_N bs) [])
  end.

(** A stand-in for a DOCX parser: one paragraph per line of the bytes. *)
Fixpoint split_lines (bs : list N) (cur : str) : list str :=
  match bs with
  | [] => [rev cur]
  | b :: r => if (b =? 10)%N then rev cur :: split_lines r []
              else split_lines r (b :: cur)
  end.

Definition toy_docx_paragraphs (bs : bytes) : result (list str) :=
  Return (split_lines (List.map Byte.to_N bs) []).

(** A model that always answers with the same one-question exam. *)
Definition sample_exam : Exam :=
  {| exam_id := None;
     exam_title := lit "Week 1 Quiz";
     total_questions := 4;
     difficulty := lit "Mixed";
     estimated_completion_minutes := 20;
     question_types := [MCQ; TrueFalse; ShortAnswer; Essay];
     questions :=
       [ MultipleChoiceQuestion 1 Easy (lit "Pick one")
           [lit "red"; lit "green"; lit "blue"] (lit "green") (lit "why");
         TrueFalseQuestion 2 Medium (lit "Is it so?") (lit "True") (lit "why");
         ShortAnswerQuestion 3 Hard (lit "Name it") (lit "a name");
         EssayQuestion 4 Hard (lit "Discuss") (lit "two pages") ] |}.

Definition world : World :=
  {| str_lower := ascii_lower;
     json_loads := toy_json_loads;
     docx_paragraphs := toy_docx_paragraphs;
     Page := str;
     pdf_pages := toy_pdf_pages;
     extract_text := fun page => Return page;
     Parsed := Exam;
     generate_content := fun _ => Return {| parsed := Some sample_exam |};
     model_validate := fun p => Return p |}.

(** The bytes of an ASCII text. *)
Definition ascii_bytes (s : string) : bytes := list_byte_of_string s.

Definition upload (name : string) (data : bytes) : UploadFile :=
  {| filename := Some (lit name); content := data |}.

(** A text given line by line, each line ended by a line feed. *)
Definition lines (l : list string) : str :=
  List.concat (List.map (fun s => lit s ++ nl) l).

(** Uploads the examples send. *)
Definition blank_txt : UploadFile := upload "notes.txt" (ascii_bytes "   ").

Definition notes_xyz : UploadFile :=
  upload "notes.xyz" (ascii_bytes "chapter one").

End Demo.

(* ===================================================================== *)
(** * The vocabulary of the specification *)
(* ===================================================================== *)

(** ** Document extractor *)

Module Reading.

Import FileService.

(** The specification's reading of one attempt: the text an encoding
    yields when the decode succeeds and is not white space only. *)
Definition usable_decode (content : bytes) (encoding : str) : option str :=
  match decode encoding content with
  | Return text => if forallb isspace text then None else Some text
  | Raise _ => None
  end.

(** "The first successful decode that yields non-whitespace-only content",
    over an ordered list of encodings. *)
Definition first_usable_decode (encs : list str) (content : bytes)
  : option str :=
  match List.find (fun enc => match usable_decode content enc with
                              | Some _ => true
                              | None => false
                              end) encs with
  | Some enc => usable_decode content enc
  | None => None
  end.

Definition DecodeError : exn :=
  HTTPException 400 (lit "Could not decode text file").

Definition NoPages : exn :=
  HTTPException 400 (lit "PDF file has no pages").

Definition EmptyContent : exn :=
  HTTPException 400
    (lit "No text content found in PDF. File might be image-based or encrypted.").

End Reading.

(** ** Export renderer *)

Module Layout.

(** *** The layout as the specification words it *)

Definition alphabet : str := lit "ABCDEFGHIJKLMNOPQRSTUVWXYZ".

(** The letter at a zero-based index. *)
Definition letter (i : nat) : N := nth i alphabet 0%N.

Definition option_line (i : nat) (option : str) : str :=
  [letter i] ++ lit ". " ++ option ++ nl.

(** One line per option, in order, the first one labelled by index [i]. *)
Fixpoint option_lines_from (i : nat) (options : list str) : str :=
  match options with
  | [] => []
  | option :: rest => option_line i option ++ option_lines_from (S i) rest
  end.

Definition option_lines (options : list str) : str :=
  option_lines_from 0 options.

(** The entry of a question in the answer key, by variant. *)
Definition answer_line (q : Question) : str :=
  lit "Question " ++ str_of_int (q_id q) ++ lit ": " ++
  match q with
  | MultipleChoiceQuestion _ _ _ _ correct_answer _ => correct_answer
  | TrueFalseQuestion _ _ _ correct_answer _ => correct_answer
  | ShortAnswerQuestion _ _ _ sample_answer =>
      lit "[Sample Answer] " ++ sample_answer
  | EssayQuestion _ _ _ _ => lit "Not Applicable"
  end ++ nl.

Definition answer_key_heading : str :=
  nl ++ lit "ANSWER KEY" ++ nl
     ++ lit "========================================" ++ nl ++ nl.

(** *** The pieces the renderer writes *)

Definition exam_heading (exam : Exam) : str :=
  lit "Exam Title: " ++ exam_title exam ++ nl
  ++ lit "Questions: " ++ str_of_int (total_questions exam) ++ nl
  ++ lit "Difficulty: " ++ difficulty exam ++ nl
  ++ lit "Estimated Time: " ++ str_of_int (estimated_completion_minutes exam)
  ++ lit " minutes" ++ nl
  ++ lit "Types: "
  ++ join (lit ", ") (List.map QuestionType_value (question_types exam)) ++ nl
  ++ nl ++ times "=" 40 ++ nl ++ nl.

Definition question_heading (fmt : EnumFormat) (q : Question) : str :=
  lit "Question " ++ str_of_int (q_id q) ++ lit " ["
  ++ format_QuestionType fmt (q_type q) ++ lit " - "
  ++ format_Difficulty fmt (q_difficulty q) ++ lit "]" ++ nl
  ++ q_question q ++ nl ++ nl.

Definition block_end : str := nl ++ times "-" 40 ++ nl ++ nl.

Definition options_of (q : Question) : list str :=
  match q with
  | MultipleChoiceQuestion _ _ _ options _ _ => options
  | _ => []
  end.

(** The block of a question whose options, if any, fit the alphabet. *)
Definition question_block (fmt : EnumFormat) (q : Question) : str :=
  question_heading fmt q
  ++ option_lines (options_of q)
  ++ match q with
     | EssayQuestion _ _ _ guidelines => lit "Guidelines: " ++ guidelines ++ nl
     | _ => []
     end
  ++ block_end.

End Layout.

(** ** Request orchestrator *)

Module Boundary.

(** What the two outer [except] clauses of [generate_exam] make of an
    exception raised in the body. *)
Definition surfaced (e : exn) : exn :=
  HTTPException 500
    (match e with
     | RuntimeError _ => lit "Error generating exam from Gemini: "
     | _ => lit "An unexpected error occurred while processing the request: "
     end ++ str_of_exn e).

(** The extension test of step 2. *)
Definition supported (W : World) (name : str) : bool :=
  existsb (fun ext => endswith (str_lower W name) (lit "." ++ ext))
    Main.supported_extensions.

Definition BothAbsent : exn :=
  HTTPException 400
    (lit "Either 'exam_guide_content' or 'exam_guide_file' must be provided.").

Definition BothPresent : exn :=
  HTTPException 400
    (lit "Provide either 'exam_guide_content' OR 'exam_guide_file', not both.").

Definition UnsupportedFormat : exn :=
  HTTPException 400
    (lit "Unsupported file type. Supported: ['docx', 'pdf', 'txt']").

Section Backend.

Variable W : World.
Variables (num_questions : Z) (difficulty additional_info : str).

(** The answer once the guide text [final_content] is in hand (steps 5
    to 7), as the trace stands at [t1]. *)
Definition answer_from (v : json) (final_content : str) (t1 : trace)
  : result Exam * trace :=
  match GeminiService.generate_exam W num_questions difficulty v
          final_content additional_info t1 with
  | (Raise e, t2) => (Raise (surfaced e), t2)
  | (Return response, t2) =>
    match parsed response with
    | None =>
        (Raise (surfaced
                  (HTTPException 500
                     (lit "Gemini API returned an empty or unparseable response."))),
         t2)
    | Some p =>
      match model_validate W p with
      | Raise e => (Raise (surfaced e), t2)
      | Return exam => (Return exam, t2)
      end
    end
  end.

End Backend.

End Boundary.

(** ** Further notions *)

Module Notions.

(** A computation that logs nothing: it leaves the trace as it finds it
    and its result does not depend on the trace. *)
Definition silent {A} (m : M A) : Prop :=
  forall t : trace, m t = (fst (m []), t).

(** [isinstance(e, HTTPException)] *)
Definition is_http (e : exn) : bool :=
  match e with
  | HTTPException _ _ => true
  | _ => false
  end.

(** One line per option, the first one labelled by the code point
    [65 + i], the next by [65 + i + 1], and so on. *)
Fixpoint coded_option_lines_from (i : Z) (options : list str) : str :=
  match options with
  | [] => []
  | option :: rest =>
      [Z.to_N (65 + i)] ++ lit ". " ++ option ++ nl
        ++ coded_option_lines_from (i + 1) rest
  end.

(** The largest number of options [chr] can label: 65 + i stays below
    0x110000 for i up to 1114046. *)
Definition max_options : Z := 1114047.

(** The parsed values of [question_types] from which a prompt can be
    built: an array of strings, a string, an object. *)
Definition joinable (v : json) : bool :=
  match v with
  | JArr items =>
      forallb (fun item => match item with JStr _ => true | _ => false end)
        items
  | JStr _ => true
  | JObj _ => true
  | _ => false
  end.

(** What [chr] raises past the last code point. *)
Definition ChrValueError : exn :=
  OtherError (lit "ValueError") (lit "chr() arg not in range(0x110000)").

(** A question without its explanation, an exam without its id and the
    explanations of its questions. *)
Definition forget_explanation (q : Question) : Question :=
  match q with
  | MultipleChoiceQuestion i d t o a _ => MultipleChoiceQuestion i d t o a []
  | TrueFalseQuestion i d t a _ => TrueFalseQuestion i d t a []
  | _ => q
  end.

Definition forget_exam (exam : Exam) : Exam :=
  {| exam_id := None;
     exam_title := exam_title exam;
     total_questions := total_questions exam;
     difficulty := difficulty exam;
     estimated_completion_minutes := estimated_completion_minutes exam;
     question_types := question_types exam;
     questions := List.map forget_explanation (questions exam) |}.

(** A world whose [json.loads] also reads the document 5, a number. *)
Definition number_world : World :=
  {| str_lower := Demo.ascii_lower;
     json_loads := fun s => if str_eqb s (lit "5") then Return (JNum (lit "5"))
                            else Demo.toy_json_loads s;
     docx_paragraphs := Demo.toy_docx_paragraphs;
     Page := str;
     pdf_pages := Demo.toy_pdf_pages;
     extract_text := fun page => Return page;
     Parsed := Exam;
     generate_content :=
       fun _ => Return {| parsed := Some Demo.sample_exam |};
     model_validate := fun p => Return p |}.

(** A world whose document parsers fail the way the libraries do on a
    file that is no DOCX and no PDF. *)
Definition broken_world : World :=
  {| str_lower := Demo.ascii_lower;
     json_loads := Demo.toy_json_loads;
     docx_paragraphs :=
       fun _ => Raise (OtherError (lit "BadZipFile")
                         (lit "File is not a zip file"));
     Page := str;
     pdf_pages :=
       fun _ => Raise (OtherError (lit "PdfReadError")
                         (lit "EOF marker not found"));
     extract_text := fun page => Return page;
     Parsed := Exam;
     generate_content :=
       fun _ => Raise (APIError 429 (lit "quota exceeded"));
     model_validate := fun p => Return p |}.

End Notions.

(* ===================================================================== *)
(** * Properties *)
(* ===================================================================== *)

(** ** Strings *)

Module PyFacts.

Lemma lstrip_nil_iff (s : str) : lstrip s = [] <-> forallb isspace s = true.
Proof.
  induction s as [|c s IH]; simpl.
  - tauto.
  - destruct (isspace c); simpl.
    + exact IH.
    + split; discriminate.
Qed.

Lemma forallb_rev {A} (p : A -> bool) (l : list A) :
  forallb p (rev l) = forallb p l.
Proof.
  induction l as [|a l IH]; simpl; [reflexivity|].
  rewrite forallb_app, IH. simpl. rewrite andb_true_r. apply andb_comm.
Qed.

(** What [lstrip] keeps is a suffix that is blank exactly when the whole
    string is. *)
Lemma forallb_isspace_lstrip (s : str) :
  forallb isspace (lstrip s) = forallb isspace s.
Proof.
  induction s as [|c s IH]; simpl; [reflexivity|].
  destruct (isspace c) eqn:E; simpl.
  - exact IH.
  - rewrite E. reflexivity.
Qed.

Lemma strip_nil_iff (s : str) : strip s = [] <-> forallb isspace s = true.
Proof.
  unfold strip, rstrip.
  rewrite <- forallb_isspace_lstrip, <- (forallb_rev isspace (lstrip s)).
  rewrite <- lstrip_nil_iff.
  split; intros H.
  - apply (f_equal (@rev N)) in H. rewrite rev_involutive in H. exact H.
  - rewrite H. reflexivity.
Qed.

(** [if text.strip():] holds when some character of [text] is not white
    space. *)
Lemma truthy_strip (s : str) :
  truthy (strip s) = negb (forallb isspace s).
Proof.
  destruct (forallb isspace s) eqn:E.
  - apply strip_nil_iff in E. rewrite E. reflexivity.
  - destruct (strip s) eqn:S; [|reflexivity].
    apply strip_nil_iff in S. congruence.
Qed.

(** Some character is visible exactly when not all are white space. *)
Lemma existsb_visible (s : str) :
  existsb (fun c => negb (isspace c)) s = negb (forallb isspace s).
Proof.
  induction s as [|c s IH]; simpl; [reflexivity|].
  rewrite IH, negb_andb. reflexivity.
Qed.

Lemma truthy_false_iff (s : str) : truthy s = false <-> s = [].
Proof. destruct s; simpl; split; congruence. Qed.

Lemma join_two (sep a b : str) : join sep [a; b] = a ++ sep ++ b.
Proof. reflexivity. Qed.

Lemma lookup_utf8 : lookup_codec (lit "utf-8") = Some utf8_decode.
Proof. reflexivity. Qed.

Lemma lookup_latin1 : lookup_codec (lit "latin-1") = Some latin1_decode.
Proof. reflexivity. Qed.

Lemma lookup_cp1252 : lookup_codec (lit "cp1252") = Some cp1252_decode.
Proof. reflexivity. Qed.

Lemma lookup_iso8859_1 : lookup_codec (lit "iso-8859-1") = Some latin1_decode.
Proof. reflexivity. Qed.

End PyFacts.

(** ** Text extraction *)

Module TxtExtraction.

Import FileService PyFacts Reading.

(** The four codecs are known, so a decode either succeeds or raises
    [UnicodeDecodeError]. *)
Lemma decode_known (encoding : str) (content : bytes) :
  In encoding encodings ->
  exists codec, lookup_codec encoding = Some codec /\
    decode encoding content =
      match codec content with
      | Some text => Return text
      | None => Raise (UnicodeDecodeError encoding)
      end.
Proof.
  unfold encodings. simpl.
  intros [<-|[<-|[<-|[<-|[]]]]]; unfold decode.
  - exists utf8_decode. rewrite lookup_utf8. auto.
  - exists latin1_decode. rewrite lookup_latin1. auto.
  - exists cp1252_decode. rewrite lookup_cp1252. auto.
  - exists latin1_decode. rewrite lookup_iso8859_1. auto.
Qed.

Lemma try_encoding_known (encoding : str) (content : bytes) (t : trace) :
  In encoding encodings ->
  try_encoding encoding content t = (Return (usable_decode content encoding), t).
Proof.
  intros Hin.
  destruct (decode_known content Hin) as (codec & _ & Hd).
  unfold try_encoding, usable_decode, try_except, bind, lift, ret.
  rewrite Hd. destruct (codec content) as [text|]; [|reflexivity].
  rewrite truthy_strip. destruct (forallb isspace text); reflexivity.
Qed.

Lemma read_txt_loop_spec (encs : list str) (content : bytes) (t : trace) :
  incl encs encodings ->
  read_txt_loop encs content t =
    (match first_usable_decode encs content with
     | Some text => Return text
     | None => Raise DecodeError
     end, t).
Proof.
  induction encs as [|enc rest IH]; intros Hincl.
  - reflexivity.
  - assert (Hin : In enc encodings) by (apply Hincl; left; reflexivity).
    assert (Hrest : incl rest encodings)
      by (intros x Hx; apply Hincl; right; exact Hx).
    cbn [read_txt_loop]. unfold bind.
    rewrite (try_encoding_known content t Hin).
    unfold first_usable_decode. cbn [List.find].
    destruct (usable_decode content enc) as [text|] eqn:E.
    + rewrite E. reflexivity.
    + rewrite (IH Hrest). reflexivity.
Qed.

Lemma first_usable_none_iff (encs : list str) (content : bytes) :
  first_usable_decode encs content = None <->
  forall enc, In enc encs -> usable_decode content enc = None.
Proof.
  unfold first_usable_decode.
  destruct (List.find _ encs) as [enc|] eqn:F.
  - apply find_some in F. destruct F as [Hin Hb].
    destruct (usable_decode content enc) as [text|] eqn:E; [|discriminate].
    split; [discriminate|]. intros H. rewrite (H enc Hin) in E. discriminate.
  - split; [|reflexivity]. intros _ enc Hin.
    pose proof (find_none _ _ F enc Hin) as Hb. cbv beta in Hb.
    destruct (usable_decode content enc); [discriminate|reflexivity].
Qed.

Lemma usable_none_iff (content : bytes) (enc : str) :
  usable_decode content enc = None <->
  forall text, decode enc content = Return text -> forallb isspace text = true.
Proof.
  unfold usable_decode. destruct (decode enc content) as [e|text].
  - split; [discriminate|reflexivity].
  - destruct (forallb isspace text) eqn:E; split.
    + intros _ text' [= <-]. exact E.
    + reflexivity.
    + discriminate.
    + intros H. specialize (H text eq_refl). congruence.
Qed.

Lemma decode_latin1 (content : bytes) :
  decode (lit "latin-1") content = Return (List.map Byte.to_N content).
Proof. unfold decode. rewrite lookup_latin1. reflexivity. Qed.

Lemma read_txt_file_spec (file : UploadFile) (t : trace) :
  _read_txt_file file t =
    (match first_usable_decode encodings (content file) with
     | Some text => Return text
     | None => Raise DecodeError
     end, t).
Proof. apply read_txt_loop_spec, incl_refl. Qed.

(** C3.  A file whose lowered name ends in the extension txt is decoded
    against utf-8, latin-1, cp1252 and iso-8859-1 in this order; extraction
    returns the text of the first encoding whose decode succeeds and is not
    white space only, and fails with the decode error (status 400, "Could
    not decode text file") when no encoding yields such a text.  The file
    is closed on both paths. *)
Theorem read_txt_first_usable_decode :
  forall (W : World) (file : UploadFile) (name : str) (t : trace),
    filename file = Some name ->
    truthy name = true ->
    contains_char 46 (str_lower W name) = true ->
    last_segment 46 (str_lower W name) = lit "txt" ->
    encodings = [lit "utf-8"; lit "latin-1"; lit "cp1252"; lit "iso-8859-1"]
    /\ _read_txt_file file t =
         (match first_usable_decode encodings (content file) with
          | Some text => Return text
          | None => Raise DecodeError
          end, t)
    /\ read_file W file t =
         (match first_usable_decode encodings (content file) with
          | Some text => Return text
          | None => Raise DecodeError
          end, t ++ [ReadFileCalled (Some name); FileClosed]).
Proof.
  intros W file name t Hname Htruthy Hdot Hext.
  split; [reflexivity|]. split; [apply read_txt_file_spec|].
  unfold read_file, bind, emit. rewrite Hname, Htruthy, Hdot, Hext.
  cbn [negb]. change (str_eqb (lit "txt") (lit "txt")) with true. cbv iota.
  unfold try_finally, try_except, emit.
  rewrite read_txt_file_spec.
  destruct (first_usable_decode encodings (content file));
    unfold DecodeError, raise; rewrite <- app_assoc; reflexivity.
Qed.

Lemma read_txt_first_usable_decode_witness :
  read_file Demo.world (Demo.upload "Notes.TXT" [x85]) [] =
    (Return [8230%N],
     [ReadFileCalled (Some (lit "Notes.TXT")); FileClosed]).
Proof.
  apply (proj2 (proj2 (@read_txt_first_usable_decode Demo.world
           (Demo.upload "Notes.TXT" [x85]) (lit "Notes.TXT") []
           eq_refl eq_refl eq_refl eq_refl))).
Defined.

(** C10.  Text extraction fails, with its decode error, exactly when every
    decode of the buffer that succeeds is white space only.  Latin-1
    decodes every byte sequence, byte by byte, so a buffer whose Latin-1
    reading has a character that is not white space is always extracted. *)
Theorem txt_fails_iff_every_decode_blank :
  forall (file : UploadFile) (t : trace),
    (_read_txt_file file t = (Raise DecodeError, t) <->
     forall enc text, In enc encodings ->
       decode enc (content file) = Return text ->
       forallb isspace text = true)
    /\ ((exists e t', _read_txt_file file t = (Raise e, t')) ->
        _read_txt_file file t = (Raise DecodeError, t))
    /\ decode (lit "latin-1") (content file) =
         Return (List.map Byte.to_N (content file))
    /\ (existsb (fun c => negb (isspace c))
          (List.map Byte.to_N (content file)) = true ->
        exists text, _read_txt_file file t = (Return text, t)).
Proof.
  intros file t.
  assert (Hiff : _read_txt_file file t = (Raise DecodeError, t) <->
     forall enc text, In enc encodings ->
       decode enc (content file) = Return text ->
       forallb isspace text = true).
  { rewrite read_txt_file_spec.
    destruct (first_usable_decode encodings (content file)) as [text|] eqn:E.
    - split; [discriminate|]. intros H. exfalso.
      assert (Hn : first_usable_decode encodings (content file) = None).
      { apply first_usable_none_iff. intros enc Hin.
        apply usable_none_iff. intros text' Hd. exact (H enc text' Hin Hd). }
      congruence.
    - split; [|reflexivity]. intros _ enc text Hin Hd.
      pose proof (proj1 (first_usable_none_iff _ _) E enc Hin) as Hu.
      exact (proj1 (usable_none_iff _ _) Hu text Hd). }
  split; [exact Hiff|]. split; [|split].
  - rewrite read_txt_file_spec.
    destruct (first_usable_decode encodings (content file)).
    + intros (e & t' & H). discriminate.
    + reflexivity.
  - apply decode_latin1.
  - intros Hvis.
    pose proof (read_txt_file_spec file t) as Hspec.
    destruct (first_usable_decode encodings (content file)) as [text|] eqn:E.
    + exists text. exact Hspec.
    + exfalso. pose proof (proj1 Hiff Hspec) as Hall.
      assert (Hb : forallb isspace (List.map Byte.to_N (content file)) = true).
      { apply (Hall (lit "latin-1")); [right; left; reflexivity|].
        apply decode_latin1. }
      clear - Hvis Hb.
      induction (List.map Byte.to_N (content file)) as [|c l IH];
        simpl in *; [discriminate|].
      apply andb_true_iff in Hb. destruct Hb as [Hc Hl].
      rewrite Hc in Hvis. simpl in Hvis. auto.
Qed.

Lemma txt_fails_iff_every_decode_blank_witness :
  exists text,
    _read_txt_file (Demo.upload "guide.txt" [x20; xe9; x0a]) [] =
      (Return text, []).
Proof.
  apply (proj2 (proj2 (proj2 (txt_fails_iff_every_decode_blank
           (Demo.upload "guide.txt" [x20; xe9; x0a]) [])))).
  reflexivity.
Defined.

End TxtExtraction.

(** ** PDF extraction *)

Module PdfExtraction.

Import FileService PyFacts Reading.

Section WithWorld.

Variable W : World.

(** The loop keeps, in page order, the texts that are not empty. *)
Lemma collect_pages_filter (pages : list (Page W)) :
  forall (texts acc : list str),
    List.map (extract_text W) pages = List.map Return texts ->
    collect_pages W pages acc = Return (acc ++ filter truthy texts).
Proof.
  induction pages as [|page rest IH]; intros texts acc H.
  - destruct texts; [|discriminate]. simpl. rewrite app_nil_r. reflexivity.
  - destruct texts as [|text texts]; [discriminate|].
    simpl in H. injection H as Hpage Hrest.
    cbn [collect_pages]. rewrite Hpage. cbn [rbind].
    rewrite (IH texts _ Hrest). cbn [filter].
    destruct (truthy text); [rewrite <- app_assoc|]; reflexivity.
Qed.

Lemma read_pdf_file_spec (file : UploadFile) (pages : list (Page W))
    (texts : list str) (t : trace) :
  pdf_pages W (content file) = Return pages ->
  List.map (extract_text W) pages = List.map Return texts ->
  _read_pdf_file W file t =
    (match pages with
     | [] => Raise NoPages
     | _ :: _ =>
       let full_text := join nl (filter truthy texts) in
       if forallb isspace full_text then Raise EmptyContent
       else Return full_text
     end, t).
Proof.
  intros Hpages Htexts.
  unfold _read_pdf_file, try_except, bind, lift. rewrite Hpages.
  destruct pages as [|page rest]; [reflexivity|].
  cbn [List.length Nat.eqb].
  rewrite (collect_pages_filter (page :: rest) texts [] Htexts).
  cbn [app]. rewrite truthy_strip, negb_involutive.
  destruct (forallb isspace (join nl (filter truthy texts))); reflexivity.
Qed.

End WithWorld.

(** C4, as the code has it.  For a PDF that parses into [pages] whose
    extracted texts are [texts]: extraction keeps, in page order, the
    texts that are not empty and joins them with one newline; it fails
    with the 400 "PDF file has no pages" when there is no page, and with
    the 400 "No text content found in PDF" when the joined text is empty
    or white space only, hence whenever the PDF has pages and none yields
    text.  With three pages of which the second extracts the empty string
    and the other two extract non-empty texts that have, between them, a
    character that is not white space, the result is the text of page 1, a
    newline, the text of page 3. *)
Theorem read_pdf_skips_empty_pages :
  forall (W : World) (file : UploadFile) (pages : list (Page W))
         (texts : list str) (t : trace),
    pdf_pages W (content file) = Return pages ->
    List.map (extract_text W) pages = List.map Return texts ->
    _read_pdf_file W file t =
      (match pages with
       | [] => Raise NoPages
       | _ :: _ =>
         if forallb isspace (join nl (filter truthy texts))
         then Raise EmptyContent
         else Return (join nl (filter truthy texts))
       end, t)
    /\ (pages <> [] -> filter truthy texts = [] ->
        _read_pdf_file W file t = (Raise EmptyContent, t))
    /\ (forall page1 page3 : str,
          texts = [page1; []; page3] ->
          page1 <> [] -> page3 <> [] ->
          existsb (fun c => negb (isspace c)) (page1 ++ page3) = true ->
          _read_pdf_file W file t = (Return (page1 ++ nl ++ page3), t)).
Proof.
  intros W file pages texts t Hpages Htexts.
  pose proof (@read_pdf_file_spec W file pages texts t Hpages Htexts) as Hspec.
  cbv zeta in Hspec.
  split; [exact Hspec|]. split.
  - intros Hsome Hnone. rewrite Hnone in Hspec. simpl in Hspec.
    destruct pages; [congruence|exact Hspec].
  - intros page1 page3 -> H1 H3 Hvis.
    destruct pages as [|p pages]; [discriminate|].
    rewrite Hspec.
    destruct page1 as [|c1 page1]; [congruence|].
    destruct page3 as [|c3 page3]; [congruence|].
    cbn [filter truthy join].
    assert (Hb : forallb isspace ((c1 :: page1) ++ nl ++ c3 :: page3) = false).
    { rewrite existsb_visible, forallb_app in Hvis.
      rewrite !forallb_app.
      change (forallb isspace nl) with true. cbn [andb].
      apply negb_true_iff. exact Hvis. }
    rewrite Hb. reflexivity.
Qed.

Lemma read_pdf_skips_empty_pages_witness :
  _read_pdf_file Demo.world
    (Demo.upload "guide.pdf" (Demo.ascii_bytes "one" ++ [x0c; x0c]
                              ++ Demo.ascii_bytes "three")) [] =
    (Return (lit "one" ++ nl ++ lit "three"), []).
Proof.
  apply (proj2 (proj2 (@read_pdf_skips_empty_pages Demo.world
           (Demo.upload "guide.pdf" (Demo.ascii_bytes "one" ++ [x0c; x0c]
                                     ++ Demo.ascii_bytes "three"))
           [lit "one"; []; lit "three"] [lit "one"; []; lit "three"] []
           eq_refl eq_refl)) (lit "one") (lit "three") eq_refl).
  - discriminate.
  - discriminate.
  - reflexivity.
Defined.

(** C4, as stated, fails on three-page PDFs whose second page extracts
    the empty string: when pages 1 and 3 extract one space each, the
    result is not the two texts joined but the 400 for missing text; when
    page 1 extracts the empty string too, the result is the text of page 3
    alone, with no newline before it. *)
Lemma outer_pages_are_not_always_joined :
  (pdf_pages Demo.world [x20; x0c; x0c; x20] = Return [lit " "; []; lit " "]
   /\ _read_pdf_file Demo.world
        (Demo.upload "guide.pdf" [x20; x0c; x0c; x20]) [] =
      (Raise EmptyContent, [])
   /\ _read_pdf_file Demo.world
        (Demo.upload "guide.pdf" [x20; x0c; x0c; x20]) [] <>
      (Return (lit " " ++ nl ++ lit " "), []))
  /\ (pdf_pages Demo.world ([x0c; x0c] ++ Demo.ascii_bytes "three") =
        Return [[]; []; lit "three"]
      /\ _read_pdf_file Demo.world
           (Demo.upload "guide.pdf" ([x0c; x0c] ++ Demo.ascii_bytes "three"))
           [] = (Return (lit "three"), [])
      /\ _read_pdf_file Demo.world
           (Demo.upload "guide.pdf" ([x0c; x0c] ++ Demo.ascii_bytes "three"))
           [] <> (Return ([] ++ nl ++ lit "three"), [])).
Proof.
  repeat split; try reflexivity; vm_compute; discriminate.
Qed.

End PdfExtraction.

(** ** Export *)

Module ExportRenderer.

Import FileService PyFacts Layout.

(** *** Options *)

Lemma chr_letter (i : nat) :
  (i < 26)%nat -> chr (65 + Z.of_nat i) = Some (letter i).
Proof.
  intros H.
  do 26 (destruct i as [|i]; [reflexivity|]).
  lia.
Qed.

Lemma write_options_letters (options : list str) :
  forall (i : nat) (buffer : str),
    (i + List.length options <= 26)%nat ->
    write_options (Z.of_nat i) options buffer =
      Return (buffer ++ option_lines_from i options).
Proof.
  induction options as [|option rest IH]; intros i buffer H.
  - simpl. rewrite app_nil_r. reflexivity.
  - cbn [List.length] in H. cbn [write_options option_lines_from].
    rewrite chr_letter by lia.
    replace (Z.of_nat i + 1)%Z with (Z.of_nat (S i)) by lia.
    rewrite IH by lia. unfold write, option_line.
    rewrite <- !app_assoc. reflexivity.
Qed.

Lemma write_question_block (fmt : EnumFormat) (q : Question) (buffer : str) :
  (List.length (options_of q) <= 26)%nat ->
  write_question fmt q buffer = Return (buffer ++ question_block fmt q).
Proof.
  intros H. unfold write_question, question_block.
  fold (question_heading fmt q).
  destruct q as [i d t o a e | i d t a e | i d t a | i d t g];
    cbn [options_of] in *.
  - change (type_is (MultipleChoiceQuestion i d t o a e) "Multiple Choice")
      with true.
    change (type_is (MultipleChoiceQuestion i d t o a e) "Essay") with false.
    cbn [q_options rbind].
    rewrite (write_options_letters o 0) by exact H.
    cbn [rbind]. unfold write, option_lines, block_end.
    rewrite <- !app_assoc. reflexivity.
  - change (type_is (TrueFalseQuestion i d t a e) "Multiple Choice")
      with false.
    change (type_is (TrueFalseQuestion i d t a e) "Essay") with false.
    cbn [rbind]. unfold write, option_lines, block_end.
    rewrite <- !app_assoc. reflexivity.
  - change (type_is (ShortAnswerQuestion i d t a) "Multiple Choice")
      with false.
    change (type_is (ShortAnswerQuestion i d t a) "Essay") with false.
    cbn [rbind]. unfold write, option_lines, block_end.
    rewrite <- !app_assoc. reflexivity.
  - change (type_is (EssayQuestion i d t g) "Multiple Choice") with false.
    change (type_is (EssayQuestion i d t g) "Essay") with true.
    cbn [q_guidelines rbind]. unfold write, option_lines, block_end.
    rewrite <- !app_assoc. reflexivity.
Qed.

Lemma write_questions_app (fmt : EnumFormat) (before after : list Question) :
  forall buffer,
    write_questions fmt (before ++ after) buffer =
      (b <~ write_questions fmt before buffer ;;
       write_questions fmt after b).
Proof.
  induction before as [|q before IH]; intros buffer.
  - reflexivity.
  - cbn [app write_questions].
    destruct (write_question fmt q buffer) as [e|b]; cbn [rbind].
    + reflexivity.
    + apply IH.
Qed.

Lemma write_questions_blocks (fmt : EnumFormat) (qs : list Question) :
  forall buffer,
    (forall q, In q qs -> (List.length (options_of q) <= 26)%nat) ->
    write_questions fmt qs buffer =
      Return (buffer ++ List.concat (List.map (question_block fmt) qs)).
Proof.
  induction qs as [|q qs IH]; intros buffer H.
  - simpl. rewrite app_nil_r. reflexivity.
  - cbn [write_questions List.map List.concat].
    rewrite write_question_block by (apply H; left; reflexivity).
    cbn [rbind]. rewrite IH by (intros q' Hq'; apply H; right; exact Hq').
    rewrite <- app_assoc. reflexivity.
Qed.

(** *** Answer key *)

Lemma write_answer_line (q : Question) (buffer : str) :
  write_answer q buffer = Return (buffer ++ answer_line q).
Proof.
  unfold write_answer, answer_line, write.
  destruct q as [i d t o a e | i d t a e | i d t a | i d t g].
  - change (type_is (MultipleChoiceQuestion i d t o a e) "Multiple Choice")
      with true.
    change (type_is (MultipleChoiceQuestion i d t o a e) "Short Answer")
      with false.
    change (type_is (MultipleChoiceQuestion i d t o a e) "Essay") with false.
    reflexivity.
  - change (type_is (TrueFalseQuestion i d t a e) "Multiple Choice")
      with false.
    change (type_is (TrueFalseQuestion i d t a e) "True/False") with true.
    change (type_is (TrueFalseQuestion i d t a e) "Short Answer") with false.
    change (type_is (TrueFalseQuestion i d t a e) "Essay") with false.
    reflexivity.
  - change (type_is (ShortAnswerQuestion i d t a) "Multiple Choice")
      with false.
    change (type_is (ShortAnswerQuestion i d t a) "True/False") with false.
    change (type_is (ShortAnswerQuestion i d t a) "Short Answer") with true.
    change (type_is (ShortAnswerQuestion i d t a) "Essay") with false.
    cbn [orb q_sample_answer rbind q_id].
    rewrite <- !app_assoc. reflexivity.
  - change (type_is (EssayQuestion i d t g) "Multiple Choice") with false.
    change (type_is (EssayQuestion i d t g) "True/False") with false.
    change (type_is (EssayQuestion i d t g) "Short Answer") with false.
    change (type_is (EssayQuestion i d t g) "Essay") with true.
    reflexivity.
Qed.

Lemma write_answers_lines (qs : list Question) :
  forall buffer,
    write_answers qs buffer =
      Return (buffer ++ List.concat (List.map answer_line qs)).
Proof.
  induction qs as [|q qs IH]; intros buffer.
  - simpl. rewrite app_nil_r. reflexivity.
  - cbn [write_answers List.map List.concat].
    rewrite write_answer_line. cbn [rbind]. rewrite IH.
    rewrite <- app_assoc. reflexivity.
Qed.

(** The renderer writes the heading, the question blocks, the heading of
    the answer key and one entry per question. *)
Lemma render_sections (fmt : EnumFormat) (exam : Exam) :
  render fmt exam =
    (b <~ write_questions fmt (questions exam) (exam_heading exam) ;;
     Return (b ++ answer_key_heading
               ++ List.concat (List.map answer_line (questions exam)))).
Proof.
  unfold render, write.
  match goal with
  | |- context [write_questions fmt (questions exam) ?B] =>
      replace B with (exam_heading exam)
        by (unfold exam_heading; cbn [app]; rewrite <- !app_assoc;
            reflexivity)
  end.
  destruct (write_questions fmt (questions exam) (exam_heading exam))
    as [e|b]; cbn [rbind]; [reflexivity|].
  rewrite write_answers_lines.
  change (nl ++ lit "ANSWER KEY" ++ nl ++ times "=" 40 ++ nl ++ nl)
    with answer_key_heading.
  rewrite <- app_assoc. reflexivity.
Qed.

(** C7.  A multiple-choice question with at most 26 options is rendered
    as its heading followed by one line per option, in the order of the
    options, each labelled by the letter at its zero-based index (A for
    option 0, B for option 1, ...), a dot and a space; the lines sit in
    the export exactly between the blocks of the questions before and
    after it.  When every question of the exam has at most 26 options the
    export is the heading, the blocks and the answer key. *)
Theorem options_are_lettered_in_order :
  forall (fmt : EnumFormat) (exam : Exam) (before after : list Question)
         (id : Z) (d : Difficulty) (text : str) (options : list str)
         (answer explanation : str),
    let q := MultipleChoiceQuestion id d text options answer explanation in
    questions exam = before ++ q :: after ->
    (List.length options <= 26)%nat ->
    (forall buffer,
        write_question fmt q buffer =
          Return (buffer ++ question_heading fmt q ++ option_lines options
                         ++ block_end))
    /\ render fmt exam =
         (b1 <~ write_questions fmt before (exam_heading exam) ;;
          b2 <~ write_questions fmt after
                  (b1 ++ question_heading fmt q ++ option_lines options
                      ++ block_end) ;;
          Return (b2 ++ answer_key_heading
                     ++ List.concat (List.map answer_line (questions exam))))
    /\ ((forall q', In q' (questions exam) ->
           (List.length (options_of q') <= 26)%nat) ->
        render fmt exam =
          Return (exam_heading exam
                  ++ List.concat (List.map (question_block fmt) before)
                  ++ question_heading fmt q ++ option_lines options
                  ++ block_end
                  ++ List.concat (List.map (question_block fmt) after)
                  ++ answer_key_heading
                  ++ List.concat (List.map answer_line (questions exam))))
    /\ (forall i option, nth_error options i = Some option ->
          nth_error alphabet i = Some (letter i)).
Proof.
  intros fmt exam before after id d text options answer explanation q Hqs Hlen.
  assert (Hq : forall buffer,
             write_question fmt q buffer =
               Return (buffer ++ question_heading fmt q ++ option_lines options
                              ++ block_end)).
  { intros buffer. rewrite write_question_block by exact Hlen.
    unfold question_block. cbn [options_of q app]. reflexivity. }
  split; [exact Hq|]. split; [|split].
  - rewrite render_sections, Hqs, write_questions_app.
    destruct (write_questions fmt before (exam_heading exam)) as [e|b1];
      cbn [rbind]; [reflexivity|].
    cbn [write_questions]. rewrite Hq. cbn [rbind]. reflexivity.
  - intros Hall.
    rewrite render_sections, write_questions_blocks by exact Hall.
    cbn [rbind]. rewrite Hqs, List.map_app, List.concat_app.
    cbn [List.map List.concat]. unfold question_block at 2.
    cbn [options_of q app]. rewrite <- !app_assoc. reflexivity.
  - intros i option Hi.
    assert (Hlt : (i < List.length options)%nat)
      by (apply nth_error_Some; congruence).
    unfold letter. apply nth_error_nth'.
    change (List.length alphabet) with 26%nat. lia.
Qed.

Lemma options_are_lettered_in_order_witness :
  render FormatValue Demo.sample_exam =
    Return (exam_heading Demo.sample_exam
            ++ lit "Question 1 [Multiple Choice - Easy]" ++ nl
            ++ lit "Pick one" ++ nl ++ nl
            ++ lit "A. red" ++ nl ++ lit "B. green" ++ nl
            ++ lit "C. blue" ++ nl
            ++ block_end
            ++ List.concat (List.map (question_block FormatValue)
                              (tl (questions Demo.sample_exam)))
            ++ answer_key_heading
            ++ List.concat (List.map answer_line
                              (questions Demo.sample_exam))).
Proof.
  apply (proj1 (proj2 (proj2 (@options_are_lettered_in_order FormatValue
           Demo.sample_exam [] (tl (questions Demo.sample_exam))
           1%Z Easy (lit "Pick one") [lit "red"; lit "green"; lit "blue"]
           (lit "green") (lit "why") eq_refl
           ltac:(repeat constructor))))).
  intros q' Hq'. simpl in Hq'.
  repeat (destruct Hq' as [<-|Hq']; [simpl; repeat constructor|]).
  destruct Hq'.
Defined.

(** C8.  The export ends with the answer key: the title ANSWER KEY, a
    line of 40 equal signs and, for each question in the order of the exam,
    one entry: the correct answer of a multiple-choice or true/false
    question, the sample answer of a short-answer question after the tag
    [Sample Answer], the words Not Applicable for an essay question. *)
Theorem export_ends_with_answer_key :
  forall (fmt : EnumFormat) (exam : Exam),
    render fmt exam =
      (b <~ write_questions fmt (questions exam) (exam_heading exam) ;;
       Return (b ++ answer_key_heading
                 ++ List.concat (List.map answer_line (questions exam))))
    /\ answer_key_heading =
         nl ++ lit "ANSWER KEY" ++ nl ++ times "=" 40 ++ nl ++ nl
    /\ (forall body, render fmt exam = Return body ->
          exists questions_part,
            body = questions_part ++ answer_key_heading
                     ++ List.concat (List.map answer_line (questions exam)))
    /\ ((forall q, In q (questions exam) ->
           (List.length (options_of q) <= 26)%nat) ->
        exists questions_part,
          render fmt exam =
            Return (questions_part ++ answer_key_heading
                      ++ List.concat (List.map answer_line (questions exam)))).
Proof.
  intros fmt exam. split; [apply render_sections|].
  split; [reflexivity|]. split.
  - intros body. rewrite render_sections.
    destruct (write_questions fmt (questions exam) (exam_heading exam))
      as [e|b]; cbn [rbind]; [discriminate|].
    intros [= <-]. exists b. reflexivity.
  - intros Hall. rewrite render_sections, write_questions_blocks by exact Hall.
    cbn [rbind]. eexists. reflexivity.
Qed.

Lemma export_ends_with_answer_key_witness :
  exists questions_part,
    render FormatValue Demo.sample_exam =
      Return (questions_part ++ answer_key_heading
              ++ lit "Question 1: green" ++ nl
              ++ lit "Question 2: True" ++ nl
              ++ lit "Question 3: [Sample Answer] a name" ++ nl
              ++ lit "Question 4: Not Applicable" ++ nl).
Proof.
  apply (proj2 (proj2 (proj2
           (export_ends_with_answer_key FormatValue Demo.sample_exam)))).
  intros q Hq. simpl in Hq.
  repeat (destruct Hq as [<-|Hq]; [simpl; repeat constructor|]).
  destruct Hq.
Defined.

Lemma latin1_encodable_app (a b : str) :
  latin1_encodable (a ++ b) = latin1_encodable a && latin1_encodable b.
Proof. apply forallb_app. Qed.

Lemma latin1_encodable_replace (s : str) :
  latin1_encodable (replace_char 32 95 s) = latin1_encodable s.
Proof.
  induction s as [|c s IH]; [reflexivity|].
  cbn [replace_char latin1_encodable List.map forallb] in *.
  unfold replace_char, latin1_encodable in IH. rewrite IH. f_equal.
  destruct (N.eqb_spec c 32) as [->|_]; reflexivity.
Qed.

(** Building the response for a file type whose name and media type are
    plain text succeeds exactly when the title can be encoded. *)
Lemma new_response_of_title (text title ext : str) (media : option str) :
  latin1_encodable ext = true ->
  match media with Some m => latin1_encodable m | None => true end = true ->
  new_StreamingResponse text media
    [ (lit "Content-Disposition",
       lit "attachment; filename="
         ++ (replace_char 32 95 title ++ lit "." ++ ext)) ] =
    if latin1_encodable title
    then Return {| body := text; media_type := media;
                   headers := [ (lit "Content-Disposition",
                                 lit "attachment; filename="
                                   ++ (replace_char 32 95 title ++ lit "."
                                         ++ ext)) ] |}
    else Raise HeaderEncodeError.
Proof.
  intros Hext Hmedia. unfold new_StreamingResponse.
  cbn [forallb fst snd]. rewrite Hmedia.
  rewrite !latin1_encodable_app, latin1_encodable_replace, Hext.
  change (latin1_encodable (lit "Content-Disposition")) with true.
  change (latin1_encodable (lit "attachment; filename=")) with true.
  change (latin1_encodable (lit ".")) with true.
  cbn [andb]. rewrite !andb_true_r. reflexivity.
Qed.

(** C9.  Rendering an exam as doc and as txt gives the same text, or
    fails the same way: in the renderer, or when the response is built
    and the title has a character that Latin-1 cannot encode, whatever
    the format.  The two responses differ in the media type,
    application/msword against text/plain, and in the extension of the
    file name of the Content-Disposition header. *)
Theorem doc_and_txt_share_their_text :
  forall (fmt : EnumFormat) (exam : Exam),
    let name := replace_char 32 95 (exam_title exam) in
    create_file_stream fmt exam (lit "txt") =
      (text <~ render fmt exam ;;
       if latin1_encodable (exam_title exam)
       then Return {| body := text;
                      media_type := Some (lit "text/plain");
                      headers := [ (lit "Content-Disposition",
                                    lit "attachment; filename=" ++ name
                                      ++ lit ".txt") ] |}
       else Raise HeaderEncodeError)
    /\ create_file_stream fmt exam (lit "doc") =
      (text <~ render fmt exam ;;
       if latin1_encodable (exam_title exam)
       then Return {| body := text;
                      media_type := Some (lit "application/msword");
                      headers := [ (lit "Content-Disposition",
                                    lit "attachment; filename=" ++ name
                                      ++ lit ".doc") ] |}
       else Raise HeaderEncodeError)
    /\ match create_file_stream fmt exam (lit "doc"),
             create_file_stream fmt exam (lit "txt") with
       | Return doc, Return txt => body doc = body txt
       | Raise e_doc, Raise e_txt => e_doc = e_txt
       | _, _ => False
       end
    /\ Main.download_exam fmt exam (lit "doc") =
         create_file_stream fmt exam (lit "doc")
    /\ Main.download_exam fmt exam (lit "txt") =
         create_file_stream fmt exam (lit "txt").
Proof.
  intros fmt exam name.
  assert (Htxt : create_file_stream fmt exam (lit "txt") =
      (text <~ render fmt exam ;;
       if latin1_encodable (exam_title exam)
       then Return {| body := text;
                      media_type := Some (lit "text/plain");
                      headers := [ (lit "Content-Disposition",
                                    lit "attachment; filename=" ++ name
                                      ++ lit ".txt") ] |}
       else Raise HeaderEncodeError)).
  { unfold create_file_stream.
    destruct (render fmt exam) as [e|text]; cbn [rbind]; [reflexivity|].
    change (dict_get mime_map (lit "txt")) with (Some (lit "text/plain")).
    rewrite new_response_of_title by reflexivity. reflexivity. }
  assert (Hdoc : create_file_stream fmt exam (lit "doc") =
      (text <~ render fmt exam ;;
       if latin1_encodable (exam_title exam)
       then Return {| body := text;
                      media_type := Some (lit "application/msword");
                      headers := [ (lit "Content-Disposition",
                                    lit "attachment; filename=" ++ name
                                      ++ lit ".doc") ] |}
       else Raise HeaderEncodeError)).
  { unfold create_file_stream.
    destruct (render fmt exam) as [e|text]; cbn [rbind]; [reflexivity|].
    change (dict_get mime_map (lit "doc"))
      with (Some (lit "application/msword")).
    rewrite new_response_of_title by reflexivity. reflexivity. }
  split; [exact Htxt|]. split; [exact Hdoc|]. split; [|split; reflexivity].
  rewrite Htxt, Hdoc.
  destruct (render fmt exam); cbn [rbind]; [reflexivity|].
  destruct (latin1_encodable (exam_title exam)); reflexivity.
Qed.

End ExportRenderer.

(** ** The generate endpoint *)

Module GeneratePath.

Import PyFacts Boundary.

Section WithWorld.

Variable W : World.
Variables (num_questions : Z) (difficulty question_types : str).
Variables (exam_guide_content additional_info : str).


(** Whatever the body raises leaves the endpoint as a 500. *)
Lemma generate_raises_500 (file : option UploadFile) (t t' : trace) (e : exn) :
  Main.generate_exam W num_questions difficulty question_types
    exam_guide_content additional_info file t = (Raise e, t') ->
  exists detail, e = HTTPException 500 detail.
Proof.
  unfold Main.generate_exam, try_except.
  match goal with |- context [match ?body t with _ => _ end] =>
    destruct (body t) as [[e0|exam] t0] end.
  - destruct e0; unfold raise; intros [= <- <-]; eexists; reflexivity.
  - discriminate.
Qed.

(** A request whose [question_types] cannot be loaded stops at once. *)
Lemma generate_json_error (file : option UploadFile) (t : trace) (e : exn) :
  json_loads W question_types = Raise e ->
  Main.generate_exam W num_questions difficulty question_types
    exam_guide_content additional_info file t = (Raise (surfaced e), t).
Proof.
  intros H. unfold Main.generate_exam, try_except, bind, lift.
  rewrite H. destruct e; reflexivity.
Qed.

Lemma generate_both_absent (v : json) (t : trace) :
  json_loads W question_types = Return v ->
  truthy exam_guide_content = false ->
  Main.generate_exam W num_questions difficulty question_types
    exam_guide_content additional_info None t = (Raise (surfaced BothAbsent), t).
Proof.
  intros Hj Hc.
  unfold Main.generate_exam, try_except, bind, lift, Main.raise_if.
  rewrite Hj, Hc. reflexivity.
Qed.

Lemma generate_both_present (v : json) (file : UploadFile) (t : trace) :
  json_loads W question_types = Return v ->
  truthy exam_guide_content = true ->
  Main.generate_exam W num_questions difficulty question_types
    exam_guide_content additional_info (Some file) t = (Raise (surfaced BothPresent), t).
Proof.
  intros Hj Hc.
  unfold Main.generate_exam, try_except, bind, lift, Main.raise_if.
  rewrite Hj, Hc. reflexivity.
Qed.

Lemma generate_unsupported (v : json) (file : UploadFile) (name : str)
    (t : trace) :
  json_loads W question_types = Return v ->
  truthy exam_guide_content = false ->
  filename file = Some name ->
  truthy name = true ->
  supported W name = false ->
  Main.generate_exam W num_questions difficulty question_types
    exam_guide_content additional_info (Some file) t = (Raise (surfaced UnsupportedFormat), t).
Proof.
  intros Hj Hc Hn Ht Hs. unfold supported in Hs.
  unfold Main.generate_exam, try_except, bind, lift, Main.raise_if,
    Main.has_filename.
  rewrite Hj, Hc, Hn, Ht, Hs. reflexivity.
Qed.

Lemma strip_truthy (s : str) : truthy (strip s) = true -> truthy s = true.
Proof.
  rewrite truthy_strip. destruct s; [discriminate|reflexivity].
Qed.

Lemma generate_extraction_failure (v : json) (file : UploadFile) (name : str)
    (t t' : trace) (e : exn) :
  json_loads W question_types = Return v ->
  truthy exam_guide_content = false ->
  filename file = Some name ->
  truthy name = true ->
  supported W name = true ->
  FileService.read_file W file t = (Raise e, t') ->
  Main.generate_exam W num_questions difficulty question_types
    exam_guide_content additional_info (Some file) t =
    (Raise (surfaced (HTTPException 500
                        (lit "Error reading file: " ++ str_of_exn e))), t').
Proof.
  intros Hj Hc Hn Ht Hs Hr. unfold supported in Hs.
  unfold Main.generate_exam, try_except, bind, lift, Main.raise_if,
    Main.has_filename.
  rewrite Hj, Hc, Hn, Ht, Hs. cbn [negb andb ret Main.present].
  rewrite Hr. reflexivity.
Qed.

Lemma generate_after_extraction (v : json) (file : UploadFile) (name : str)
    (t t1 : trace) (final_content : str) :
  json_loads W question_types = Return v ->
  truthy exam_guide_content = false ->
  filename file = Some name ->
  truthy name = true ->
  supported W name = true ->
  FileService.read_file W file t = (Return final_content, t1) ->
  truthy (strip final_content) = true ->
  Main.generate_exam W num_questions difficulty question_types
    exam_guide_content additional_info (Some file) t =
    answer_from W num_questions difficulty additional_info v final_content t1.
Proof.
  intros Hj Hc Hn Ht Hs Hr Hf. unfold supported in Hs.
  pose proof (strip_truthy _ Hf) as Hf'.
  unfold Main.generate_exam, answer_from, try_except, bind, lift,
    Main.raise_if, Main.has_filename.
  rewrite Hj, Hc, Hn, Ht, Hs. cbn [negb andb ret Main.present].
  rewrite Hr, Hf, Hf'. cbn [negb orb ret].
  destruct (GeminiService.generate_exam W num_questions difficulty v
              final_content additional_info t1) as [[e|response] t2].
  - destruct e; reflexivity.
  - destruct (parsed response) as [p|]; [|reflexivity].
    destruct (model_validate W p) as [e|exam]; [|reflexivity].
    destruct e; reflexivity.
Qed.

Lemma generate_inline (v : json) (t : trace) :
  json_loads W question_types = Return v ->
  truthy (strip exam_guide_content) = true ->
  Main.generate_exam W num_questions difficulty question_types
    exam_guide_content additional_info None t =
    answer_from W num_questions difficulty additional_info v
      exam_guide_content t.
Proof.
  intros Hj Hf. pose proof (strip_truthy _ Hf) as Hf'.
  unfold Main.generate_exam, answer_from, try_except, bind, lift,
    Main.raise_if.
  rewrite Hj, Hf'. cbn [negb orb andb ret Main.present].
  rewrite Hf, Hf'. cbn [negb orb ret].
  destruct (GeminiService.generate_exam W num_questions difficulty v
              exam_guide_content additional_info t) as [[e|response] t2].
  - destruct e; reflexivity.
  - destruct (parsed response) as [p|]; [|reflexivity].
    destruct (model_validate W p) as [e|exam]; [|reflexivity].
    destruct e; reflexivity.
Qed.

(** A failing [answer_from] is a 500. *)
Lemma answer_from_raises_500 (v : json) (c : str) (t1 t2 : trace) (e : exn) :
  answer_from W num_questions difficulty additional_info v c t1
    = (Raise e, t2) ->
  exists detail, e = HTTPException 500 detail.
Proof.
  unfold answer_from.
  destruct (GeminiService.generate_exam W num_questions difficulty v c
              additional_info t1) as [[e0|response] t0].
  - intros [= <- <-]. eexists; reflexivity.
  - destruct (parsed response) as [p|].
    + destruct (model_validate W p) as [e0|exam].
      * intros [= <- <-]. eexists; reflexivity.
      * discriminate.
    + intros [= <- <-]. eexists; reflexivity.
Qed.

End WithWorld.

(** C1, on the code.  Once the request is well formed, a failure of the
    extraction step (a text file no encoding reads, a DOCX whose text is
    blank, a PDF without text, or any other error of
    [FileService.read_file]) reaches the [except Exception] clause around
    the call, which replaces the status the extractor chose, its own 400s
    included, by a 500 whose detail wraps "Error reading file"; the last
    [except] clause of the endpoint wraps it once more.  The failures of
    generation and of schema validation (steps 5 and 6) leave the endpoint
    as a 500, as the claim says. *)
Theorem extraction_and_backend_failures_answer_500 :
  forall (W : World) (num_questions : Z)
         (difficulty question_types exam_guide_content additional_info : str)
         (v : json) (t : trace),
    json_loads W question_types = Return v ->
    (forall file name e t',
        truthy exam_guide_content = false ->
        filename file = Some name -> truthy name = true ->
        supported W name = true ->
        FileService.read_file W file t = (Raise e, t') ->
        Main.generate_exam W num_questions difficulty question_types
          exam_guide_content additional_info (Some file) t =
          (Raise (surfaced (HTTPException 500
                              (lit "Error reading file: " ++ str_of_exn e))),
           t'))
    /\ (forall file name final_content t1,
        truthy exam_guide_content = false ->
        filename file = Some name -> truthy name = true ->
        supported W name = true ->
        FileService.read_file W file t = (Return final_content, t1) ->
        truthy (strip final_content) = true ->
        Main.generate_exam W num_questions difficulty question_types
          exam_guide_content additional_info (Some file) t =
          answer_from W num_questions difficulty additional_info v
            final_content t1)
    /\ (truthy (strip exam_guide_content) = true ->
        Main.generate_exam W num_questions difficulty question_types
          exam_guide_content additional_info None t =
          answer_from W num_questions difficulty additional_info v
            exam_guide_content t)
    /\ (forall final_content t1 t2 e,
        answer_from W num_questions difficulty additional_info v
          final_content t1 = (Raise e, t2) ->
        exists detail, e = HTTPException 500 detail).
Proof.
  intros W n d qt guide info v t Hj. split; [|split; [|split]].
  - intros file name e t' Hc Hn Ht Hs Hr.
    exact (@generate_extraction_failure W n d qt guide info v file name t t' e
             Hj Hc Hn Ht Hs Hr).
  - intros file name c t1 Hc Hn Ht Hs Hr Hf.
    exact (@generate_after_extraction W n d qt guide info v file name t t1 c
             Hj Hc Hn Ht Hs Hr Hf).
  - intros Hf. exact (@generate_inline W n d qt guide info v t Hj Hf).
  - intros c t1 t2 e H.
    exact (@answer_from_raises_500 W n d info v c t1 t2 e H).
Qed.

Lemma extraction_and_backend_failures_answer_500_witness :
  Main.generate_exam Demo.world 5 (lit "Easy") (lit "[]") [] []
    (Some Demo.blank_txt) [] =
    (Raise (HTTPException 500
              (lit "An unexpected error occurred while processing the request: 500: Error reading file: 400: Could not decode text file")),
     [ReadFileCalled (Some (lit "notes.txt")); FileClosed]).
Proof.
  apply (proj1 (@extraction_and_backend_failures_answer_500 Demo.world 5
           (lit "Easy") (lit "[]") [] [] (JArr []) [] eq_refl)
           Demo.blank_txt (lit "notes.txt")
           (HTTPException 400 (lit "Could not decode text file"))
           [ReadFileCalled (Some (lit "notes.txt")); FileClosed]
           eq_refl eq_refl eq_refl eq_refl eq_refl).
Defined.

(** C1 at a failing input: a text file of three spaces passes the checks
    of steps 1 and 2, extraction rejects it with its own 400, and the
    client receives 500, which is no 4xx. *)
Lemma blank_txt_answers_500_not_4xx :
  fst (run (FileService.read_file Demo.world Demo.blank_txt)) =
    Raise (HTTPException 400 (lit "Could not decode text file"))
  /\ Http.status_of
       (fst (run (Main.generate_exam Demo.world 5 (lit "Easy") (lit "[]")
                    [] [] (Some Demo.blank_txt)))) = 500%Z
  /\ Http.is_4xx
       (Http.status_of
          (fst (run (Main.generate_exam Demo.world 5 (lit "Easy") (lit "[]")
                       [] [] (Some Demo.blank_txt))))) = false.
Proof. repeat split. Qed.

(** C2, on the code.  With [question_types] loaded, a request with neither
    guide text nor file, or with both, raises its 400 inside the [try]
    block; the last [except] clause catches it and the endpoint answers
    500, the 400 quoted in the detail.  Nothing is logged: neither
    extraction nor the model is called. *)
Theorem presence_errors_answer_500 :
  forall (W : World) (num_questions : Z)
         (difficulty question_types exam_guide_content additional_info : str)
         (v : json) (file : UploadFile) (t : trace),
    json_loads W question_types = Return v ->
    (truthy exam_guide_content = false ->
     Main.generate_exam W num_questions difficulty question_types
       exam_guide_content additional_info None t =
       (Raise (HTTPException 500
                 (lit "An unexpected error occurred while processing the request: 400: Either 'exam_guide_content' or 'exam_guide_file' must be provided.")),
        t))
    /\ (truthy exam_guide_content = true ->
        Main.generate_exam W num_questions difficulty question_types
          exam_guide_content additional_info (Some file) t =
          (Raise (HTTPException 500
                    (lit "An unexpected error occurred while processing the request: 400: Provide either 'exam_guide_content' OR 'exam_guide_file', not both.")),
           t)).
Proof.
  intros W n d qt guide info v file t Hj. split; intros Hc.
  - exact (@generate_both_absent W n d qt guide info v t Hj Hc).
  - exact (@generate_both_present W n d qt guide info v file t Hj Hc).
Qed.

Lemma presence_errors_answer_500_witness :
  Http.status_of
    (fst (run (Main.generate_exam Demo.world 5 (lit "Easy") (lit "[]")
                 [] [] None))) = 500%Z
  /\ Http.status_of
       (fst (run (Main.generate_exam Demo.world 5 (lit "Easy") (lit "[]")
                    (lit "Chapter one") [] (Some Demo.notes_xyz)))) = 500%Z.
Proof.
  unfold run.
  rewrite (proj1 (@presence_errors_answer_500 Demo.world 5 (lit "Easy")
                    (lit "[]") [] [] (JArr []) Demo.notes_xyz [] eq_refl)
             eq_refl).
  rewrite (proj2 (@presence_errors_answer_500 Demo.world 5 (lit "Easy")
                    (lit "[]") (lit "Chapter one") [] (JArr [])
                    Demo.notes_xyz [] eq_refl) eq_refl).
  split; reflexivity.
Defined.

(** C5, as the code has it.  When [json.loads] raises on
    [question_types] the endpoint answers 500 and logs nothing: neither
    extraction nor the model is called.  The detail is "An unexpected
    error occurred while processing the request: " followed by the error,
    as for the [JSONDecodeError] of a text that is no JSON document,
    unless the error is a [RuntimeError] (a [RecursionError] on deep
    nesting): then it is "Error generating exam from Gemini: " followed
    by the error. *)
Theorem malformed_question_types_answer_500 :
  forall (W : World) (num_questions : Z)
         (difficulty question_types exam_guide_content additional_info : str)
         (file : option UploadFile) (e : exn) (t : trace),
    json_loads W question_types = Raise e ->
    Main.generate_exam W num_questions difficulty question_types
      exam_guide_content additional_info file t =
      (Raise (HTTPException 500
                (match e with
                 | RuntimeError _ => lit "Error generating exam from Gemini: "
                 | _ => lit "An unexpected error occurred while processing the request: "
                 end ++ str_of_exn e)), t)
    /\ ((forall msg, e <> RuntimeError msg) ->
        Main.generate_exam W num_questions difficulty question_types
          exam_guide_content additional_info file t =
          (Raise (HTTPException 500
                    (lit "An unexpected error occurred while processing the request: "
                     ++ str_of_exn e)), t))
    /\ (forall msg, e = RuntimeError msg ->
        Main.generate_exam W num_questions difficulty question_types
          exam_guide_content additional_info file t =
          (Raise (HTTPException 500
                    (lit "Error generating exam from Gemini: " ++ msg)), t)).
Proof.
  intros W n d qt guide info file e t Hj.
  pose proof (@generate_json_error W n d qt guide info file t e Hj) as H.
  unfold surfaced in H.
  split; [exact H|]. split.
  - intros Hne. rewrite H. destruct e; try reflexivity.
    exfalso. exact (Hne _ eq_refl).
  - intros msg ->. exact H.
Qed.

Lemma malformed_question_types_answer_500_witness :
  Main.generate_exam Demo.world 5 (lit "Easy") (lit "Essay,True/False")
    (lit "Chapter one") [] None [] =
    (Raise (HTTPException 500
              (lit "An unexpected error occurred while processing the request: Expecting value: line 1 column 1 (char 0)")),
     []).
Proof.
  apply (proj1 (@malformed_question_types_answer_500 Demo.world 5 (lit "Easy")
                  (lit "Essay,True/False") (lit "Chapter one") [] None
                  (OtherError (lit "JSONDecodeError")
                     (lit "Expecting value: line 1 column 1 (char 0)"))
                  [] eq_refl)).
Defined.

(** C5, as stated, fails: a [question_types] field that is no JSON
    document is answered 500, which is no 4xx. *)
Lemma malformed_question_types_not_4xx :
  Demo.toy_json_loads (lit "Essay,True/False") =
    Raise (OtherError (lit "JSONDecodeError")
             (lit "Expecting value: line 1 column 1 (char 0)"))
  /\ Http.status_of
       (fst (run (Main.generate_exam Demo.world 5 (lit "Easy")
                    (lit "Essay,True/False") (lit "Chapter one") []
                    None))) = 500%Z
  /\ Http.is_4xx
       (Http.status_of
          (fst (run (Main.generate_exam Demo.world 5 (lit "Easy")
                       (lit "Essay,True/False") (lit "Chapter one") []
                       None)))) = false.
Proof. repeat split. Qed.

(** C6, on the code.  An uploaded file whose lowered name ends in none of
    .docx, .pdf, .txt raises a 400 that lists the supported extensions,
    inside the [try] block; the last [except] clause catches it and the
    endpoint answers 500, the 400 and its list quoted in the detail.
    Nothing is logged: extraction is not called. *)
Theorem unsupported_extension_answers_500 :
  forall (W : World) (num_questions : Z)
         (difficulty question_types exam_guide_content additional_info : str)
         (v : json) (file : UploadFile) (name : str) (t : trace),
    json_loads W question_types = Return v ->
    truthy exam_guide_content = false ->
    filename file = Some name ->
    truthy name = true ->
    endswith (str_lower W name) (lit ".docx") = false ->
    endswith (str_lower W name) (lit ".pdf") = false ->
    endswith (str_lower W name) (lit ".txt") = false ->
    Main.generate_exam W num_questions difficulty question_types
      exam_guide_content additional_info (Some file) t =
      (Raise (HTTPException 500
                (lit "An unexpected error occurred while processing the request: 400: Unsupported file type. Supported: ['docx', 'pdf', 'txt']")),
       t).
Proof.
  intros W n d qt guide info v file name t Hj Hc Hn Ht Hdocx Hpdf Htxt.
  apply (@generate_unsupported W n d qt guide info v file name t Hj Hc Hn Ht).
  unfold supported, Main.supported_extensions. cbn [List.map existsb
    InputFileType_members InputFileType_value].
  change (lit "." ++ lit "docx") with (lit ".docx").
  change (lit "." ++ lit "pdf") with (lit ".pdf").
  change (lit "." ++ lit "txt") with (lit ".txt").
  rewrite Hdocx, Hpdf, Htxt. reflexivity.
Qed.

Lemma unsupported_extension_answers_500_witness :
  Http.status_of
    (fst (run (Main.generate_exam Demo.world 5 (lit "Easy") (lit "[]")
                 [] [] (Some Demo.notes_xyz)))) = 500%Z
  /\ snd (run (Main.generate_exam Demo.world 5 (lit "Easy") (lit "[]")
                 [] [] (Some Demo.notes_xyz))) = [].
Proof.
  unfold run.
  rewrite (@unsupported_extension_answers_500 Demo.world 5 (lit "Easy")
             (lit "[]") [] [] (JArr []) Demo.notes_xyz (lit "notes.xyz") []
             eq_refl eq_refl eq_refl eq_refl eq_refl eq_refl eq_refl).
  split; reflexivity.
Defined.

End GeneratePath.

(** ** Worked examples *)

Module Examples.

Import Reading Layout.

(** The export of the sample exam, line by line. *)
Example sample_export_text :
  FileService.render FormatValue Demo.sample_exam =
    Return (Demo.lines
      [ "Exam Title: Week 1 Quiz";
        "Questions: 4";
        "Difficulty: Mixed";
        "Estimated Time: 20 minutes";
        "Types: Multiple Choice, True/False, Short Answer, Essay";
        "";
        "========================================";
        "";
        "Question 1 [Multiple Choice - Easy]";
        "Pick one";
        "";
        "A. red";
        "B. green";
        "C. blue";
        "";
        "----------------------------------------";
        "";
        "Question 2 [True/False - Medium]";
        "Is it so?";
        "";
        "";
        "----------------------------------------";
        "";
        "Question 3 [Short Answer - Hard]";
        "Name it";
        "";
        "";
        "----------------------------------------";
        "";
        "Question 4 [Essay - Hard]";
        "Discuss";
        "";
        "Guidelines: two pages";
        "";
        "----------------------------------------";
        "";
        "";
        "ANSWER KEY";
        "========================================";
        "";
        "Question 1: green";
        "Question 2: True";
        "Question 3: [Sample Answer] a name";
        "Question 4: Not Applicable" ]).
Proof. vm_compute. reflexivity. Qed.

(** On interpreters that print an enumeration member by its name, only
    the question headings change. *)
Example member_format_heading :
  question_heading FormatMember (EssayQuestion 4 Hard (lit "Discuss") []) =
    Demo.lines ["Question 4 [QuestionType.Essay - Difficulty.Hard]";
                "Discuss"; ""].
Proof. vm_compute. reflexivity. Qed.

(** Past the alphabet the labels go on through the code points after Z:
    the 27th option is labelled by an opening bracket. *)
Example option_27_label :
  FileService.write_options 26 [lit "last"] [] = Return (lit "[. last" ++ nl).
Proof. vm_compute. reflexivity. Qed.

(** A title with a character above U+00FF renders, but no response can
    be built for it: the Content-Disposition header cannot be encoded,
    under either file type. *)
Example wide_title_cannot_be_served :
  exists text,
    FileService.render FormatValue
      {| exam_id := None; exam_title := [8721%N]; total_questions := 0;
         difficulty := lit "Easy"; estimated_completion_minutes := 0;
         question_types := []; questions := [] |} = Return text
  /\ forall file_type,
      In file_type [lit "txt"; lit "doc"] ->
      Main.download_exam FormatValue
        {| exam_id := None; exam_title := [8721%N]; total_questions := 0;
           difficulty := lit "Easy"; estimated_completion_minutes := 0;
           question_types := []; questions := [] |} file_type =
        Raise FileService.HeaderEncodeError.
Proof.
  eexists. split; [reflexivity|].
  intros file_type [<-|[<-|[]]]; vm_compute; reflexivity.
Qed.

Example download_rejects_pdf :
  Main.download_exam FormatValue Demo.sample_exam (lit "pdf") =
    Raise (HTTPException 400 (lit "Invalid file type")).
Proof. vm_compute. reflexivity. Qed.

(** UTF-8: the euro sign and an emoji; an overlong form, a surrogate and a
    truncated sequence are refused. *)
Example utf8_euro_emoji :
  utf8_decode [xe2; x82; xac; x20; xf0; x9f; x98; x80] =
    Some [8364%N; 32%N; 128512%N].
Proof. vm_compute. reflexivity. Qed.

Example utf8_refusals :
  utf8_decode [xc0; x80] = None /\ utf8_decode [xed; xa0; x80] = None
  /\ utf8_decode [xf4; x90; x80; x80] = None /\ utf8_decode [xe2; x82] = None.
Proof. vm_compute. repeat split. Qed.

(** The byte 0x85 alone: no UTF-8, a blank (NEXT LINE) in Latin-1, the
    ellipsis in Windows-1252, which is therefore the text returned. *)
Example lone_0x85_is_an_ellipsis :
  FileService._read_txt_file (Demo.upload "a.txt" [x85]) [] =
    (Return [8230%N], []).
Proof. vm_compute. reflexivity. Qed.

(** A space and a no-break space: blank in every encoding that reads
    them. *)
Example blank_bytes_are_refused :
  FileService._read_txt_file (Demo.upload "a.txt" [x20; xa0]) [] =
    (Raise DecodeError, []).
Proof. vm_compute. reflexivity. Qed.

(** The extractor accepts the extension doc and then finds no reader for
    it. *)
Example doc_upload_has_no_reader :
  FileService.read_file Demo.world (Demo.upload "guide.doc" [x41]) [] =
    (Raise (HTTPException 500
              (lit "Error processing file: type object 'FileService' has no attribute '_read_doc_file'")),
     [ReadFileCalled (Some (lit "guide.doc")); FileClosed]).
Proof. vm_compute. reflexivity. Qed.

(** A file name without a dot is refused before the [try] block: the file
    is not closed. *)
Example no_extension_is_refused :
  FileService.read_file Demo.world (Demo.upload "guide" [x41]) [] =
    (Raise (HTTPException 400 (lit "File must have an extension")),
     [ReadFileCalled (Some (lit "guide"))]).
Proof. vm_compute. reflexivity. Qed.

(** A DOCX whose paragraphs are blank and a PDF whose pages carry no text
    are refused by the extractor with a 400 and answered 500 by the
    endpoint. *)
Example blank_docx_answers_500 :
  FileService.read_file Demo.world
    (Demo.upload "guide.docx" (Demo.ascii_bytes "  ")) [] =
    (Raise (HTTPException 400 (lit "No text content found in DOCX file")),
     [ReadFileCalled (Some (lit "guide.docx")); FileClosed])
  /\ Main.generate_exam Demo.world 5 (lit "Easy") (lit "[]") [] []
       (Some (Demo.upload "guide.docx" (Demo.ascii_bytes "  "))) [] =
     (Raise (HTTPException 500
               (lit "An unexpected error occurred while processing the request: 500: Error reading file: 400: No text content found in DOCX file")),
      [ReadFileCalled (Some (lit "guide.docx")); FileClosed]).
Proof. vm_compute. split; reflexivity. Qed.

Example textless_pdf_answers_500 :
  FileService.read_file Demo.world (Demo.upload "guide.pdf" [x0c; x0c]) [] =
    (Raise EmptyContent,
     [ReadFileCalled (Some (lit "guide.pdf")); FileClosed])
  /\ Http.status_of
       (fst (Main.generate_exam Demo.world 5 (lit "Easy") (lit "[]") [] []
               (Some (Demo.upload "guide.pdf" [x0c; x0c])) [])) = 500%Z.
Proof. vm_compute. split; reflexivity. Qed.

(** Pages of white space only carry no text content: the loop keeps them
    and the check on the joined text refuses the file. *)
Example blank_pages_are_refused :
  FileService._read_pdf_file Demo.world
    (Demo.upload "guide.pdf" [x20; x0c; x0c; x20]) [] =
    (Raise EmptyContent, []).
Proof. vm_compute. reflexivity. Qed.

(** A well-formed request with inline text reaches the model once and
    returns its exam. *)
Example inline_request_succeeds :
  fst (Main.generate_exam Demo.world 5 (lit "Easy") (lit "[]")
         (lit "Chapter one") [] None []) = Return Demo.sample_exam
  /\ List.length (snd (Main.generate_exam Demo.world 5 (lit "Easy") (lit "[]")
                         (lit "Chapter one") [] None [])) = 1%nat.
Proof. vm_compute. split; reflexivity. Qed.

End Examples.

(** ** The extractor as a whole *)

Module ExtractorFacts.

Import FileService PyFacts Reading Notions.

Lemma str_eqb_refl (s : str) : str_eqb s s = true.
Proof.
  induction s as [|c s IH]; simpl; [reflexivity|].
  rewrite N.eqb_refl. exact IH.
Qed.

Lemma str_eqb_eq (a b : str) : str_eqb a b = true <-> a = b.
Proof.
  split; [|intros <-; apply str_eqb_refl].
  revert b. induction a as [|x a IH]; intros [|y b]; simpl;
    try discriminate; [reflexivity|].
  intros H. apply andb_true_iff in H. destruct H as [Hx Hr].
  apply N.eqb_eq in Hx. rewrite (IH _ Hr), Hx. reflexivity.
Qed.

(** A usable decode has a visible character. *)
Lemma usable_visible (content : bytes) (enc text : str) :
  usable_decode content enc = Some text -> forallb isspace text = false.
Proof.
  unfold usable_decode. destruct (decode enc content) as [e|text'].
  - discriminate.
  - destruct (forallb isspace text') eqn:E; [discriminate|].
    intros [= <-]. exact E.
Qed.

Lemma first_usable_visible (encs : list str) (content : bytes) (text : str) :
  first_usable_decode encs content = Some text ->
  forallb isspace text = false.
Proof.
  unfold first_usable_decode.
  destruct (List.find _ encs) as [enc|]; [|discriminate].
  apply usable_visible.
Qed.

Section WithWorld.

Variable W : World.

Lemma txt_silent (file : UploadFile) : silent (_read_txt_file file).
Proof.
  intros t. rewrite !TxtExtraction.read_txt_file_spec. reflexivity.
Qed.

Lemma docx_silent (file : UploadFile) : silent (_read_docx_file W file).
Proof.
  intros t. unfold _read_docx_file, bind, lift.
  destruct (docx_paragraphs W (content file)) as [e|ps]; [reflexivity|].
  destruct (negb (truthy (strip (join nl ps)))); reflexivity.
Qed.

Lemma pdf_silent (file : UploadFile) : silent (_read_pdf_file W file).
Proof.
  intros t. unfold _read_pdf_file, try_except, bind, lift.
  destruct (pdf_pages W (content file)) as [e|pages].
  - destruct e; reflexivity.
  - destruct (List.length pages =? 0)%nat; [reflexivity|].
    destruct (collect_pages W pages []) as [e|texts].
    + destruct e; reflexivity.
    + destruct (negb (truthy (strip (join nl texts)))); reflexivity.
Qed.

Lemma txt_returns_visible (file : UploadFile) (t t' : trace) (text : str) :
  _read_txt_file file t = (Return text, t') -> forallb isspace text = false.
Proof.
  rewrite TxtExtraction.read_txt_file_spec.
  destruct (first_usable_decode encodings (content file)) as [text'|] eqn:E;
    [|discriminate].
  intros [= <- _]. exact (first_usable_visible _ _ E).
Qed.

Lemma docx_returns_visible (file : UploadFile) (t t' : trace) (text : str) :
  _read_docx_file W file t = (Return text, t') ->
  forallb isspace text = false.
Proof.
  unfold _read_docx_file, bind, lift.
  destruct (docx_paragraphs W (content file)) as [e|ps]; [discriminate|].
  rewrite truthy_strip, negb_involutive.
  destruct (forallb isspace (join nl ps)) eqn:E; [discriminate|].
  intros [= <- _]. exact E.
Qed.

Lemma pdf_returns_visible (file : UploadFile) (t t' : trace) (text : str) :
  _read_pdf_file W file t = (Return text, t') ->
  forallb isspace text = false.
Proof.
  unfold _read_pdf_file, try_except, bind, lift.
  destruct (pdf_pages W (content file)) as [e|pages].
  - destruct e; discriminate.
  - destruct (List.length pages =? 0)%nat; [discriminate|].
    destruct (collect_pages W pages []) as [e|texts].
    + destruct e; discriminate.
    + rewrite truthy_strip, negb_involutive.
      destruct (forallb isspace (join nl texts)) eqn:E; [discriminate|].
      intros [= <- _]. exact E.
Qed.

(** Whatever [read_file] returns has a visible character. *)
Lemma read_file_visible (file : UploadFile) (t t' : trace) (text : str) :
  read_file W file t = (Return text, t') -> forallb isspace text = false.
Proof.
  unfold read_file, bind, emit.
  destruct (filename file) as [name|]; [|discriminate].
  destruct (truthy name); cbn [negb]; [|discriminate].
  destruct (contains_char 46 (str_lower W name)); cbn [negb]; [|discriminate].
  unfold try_finally, try_except, emit.
  set (t0 := t ++ [ReadFileCalled (Some name)]).
  destruct (str_eqb _ (lit "txt")).
  { destruct (_read_txt_file file t0) as [[e|x] t1] eqn:E.
    - destruct e; discriminate.
    - intros [= <- _]. exact (txt_returns_visible _ _ E). }
  destruct (str_eqb _ (lit "docx")).
  { destruct (_read_docx_file W file t0) as [[e|x] t1] eqn:E.
    - destruct e; discriminate.
    - intros [= <- _]. exact (docx_returns_visible _ _ E). }
  destruct (str_eqb _ (lit "doc")); [discriminate|].
  destruct (str_eqb _ (lit "pdf")); [|discriminate].
  destruct (_read_pdf_file W file t0) as [[e|x] t1] eqn:E.
  - destruct e; discriminate.
  - intros [= <- _]. exact (pdf_returns_visible _ _ E).
Qed.

End WithWorld.

Lemma collect_pages_fails (W : World) (before : list (Page W)) :
  forall (page : Page W) (after : list (Page W)) (texts acc : list str)
         (e : exn),
    List.map (extract_text W) before = List.map Return texts ->
    extract_text W page = Raise e ->
    collect_pages W (before ++ page :: after) acc = Raise e.
Proof.
  induction before as [|p before IH]; intros page after texts acc e Hb Hp.
  - cbn [app collect_pages]. rewrite Hp. reflexivity.
  - destruct texts as [|text texts]; [discriminate|].
    simpl in Hb. injection Hb as Hp0 Hrest.
    cbn [app collect_pages]. rewrite Hp0. cbn [rbind].
    exact (IH page after texts _ e Hrest Hp).
Qed.

(** Entering the [try] block of [read_file]. *)
Ltac enter_read_file Hname Htruthy Hdot :=
  unfold read_file, bind, emit; rewrite Hname, Htruthy, Hdot;
  cbn [negb]; unfold try_finally, try_except, emit.

(** Every exception that leaves [read_file] is an [HTTPException]: the
    errors of the codecs and of the document libraries never reach the
    caller under their own class. *)
Theorem read_file_raises_http_only :
  forall (W : World) (file : UploadFile) (t t' : trace) (e : exn),
    read_file W file t = (Raise e, t') -> is_http e = true.
Proof.
  intros W file t t' e.
  unfold read_file, bind, emit.
  destruct (filename file) as [name|]; [|intros [= <- _]; reflexivity].
  destruct (truthy name); cbn [negb]; [|intros [= <- _]; reflexivity].
  destruct (contains_char 46 (str_lower W name)); cbn [negb];
    [|intros [= <- _]; reflexivity].
  unfold try_finally, try_except, emit.
  set (t0 := t ++ [ReadFileCalled (Some name)]).
  destruct (str_eqb _ (lit "txt")).
  { destruct (_read_txt_file file t0) as [[e0|x] t1]; [|discriminate].
    destruct e0; intros [= <- _]; reflexivity. }
  destruct (str_eqb _ (lit "docx")).
  { destruct (_read_docx_file W file t0) as [[e0|x] t1]; [|discriminate].
    destruct e0; intros [= <- _]; reflexivity. }
  destruct (str_eqb _ (lit "doc")); [intros [= <- _]; reflexivity|].
  destruct (str_eqb _ (lit "pdf")); [|intros [= <- _]; reflexivity].
  destruct (_read_pdf_file W file t0) as [[e0|x] t1]; [|discriminate].
  destruct e0; intros [= <- _]; reflexivity.
Qed.

Lemma read_file_raises_http_only_witness :
  is_http (HTTPException 500
             (lit "Error processing file: File is not a zip file")) = true.
Proof.
  apply (@read_file_raises_http_only broken_world
           (Demo.upload "guide.docx" [x50; x4b]) []
           [ReadFileCalled (Some (lit "guide.docx")); FileClosed]).
  reflexivity.
Defined.

(** [read_file] logs its call and, once the name has passed the two
    checks before the [try] block, closes the file on every path, whether
    the reader returns or raises; a name that fails a check is refused
    without the file being closed.  The readers log nothing of their own. *)
Theorem read_file_closes_on_every_path :
  forall (W : World) (file : UploadFile) (t : trace),
    snd (read_file W file t) =
      match filename file with
      | Some name =>
          if truthy name && contains_char 46 (str_lower W name)
          then t ++ [ReadFileCalled (Some name); FileClosed]
          else t ++ [ReadFileCalled (Some name)]
      | None => t ++ [ReadFileCalled None]
      end.
Proof.
  intros W file t.
  unfold read_file, bind, emit.
  destruct (filename file) as [name|]; [|reflexivity].
  destruct (truthy name); cbn [negb andb]; [|reflexivity].
  destruct (contains_char 46 (str_lower W name)); cbn [negb]; [|reflexivity].
  unfold try_finally, try_except, emit.
  set (t0 := t ++ [ReadFileCalled (Some name)]).
  assert (Ht0 : forall (r : result str),
             snd (r, t0 ++ [FileClosed]) =
               t ++ [ReadFileCalled (Some name); FileClosed]).
  { intros r. unfold t0. rewrite <- app_assoc. reflexivity. }
  destruct (str_eqb _ (lit "txt")).
  { rewrite (txt_silent file t0).
    destruct (fst (_read_txt_file file [])) as [e|x]; [destruct e|];
      apply Ht0. }
  destruct (str_eqb _ (lit "docx")).
  { rewrite (docx_silent W file t0).
    destruct (fst (_read_docx_file W file [])) as [e|x]; [destruct e|];
      apply Ht0. }
  destruct (str_eqb _ (lit "doc")); [apply Ht0|].
  destruct (str_eqb _ (lit "pdf")); [|apply Ht0].
  rewrite (pdf_silent W file t0).
  destruct (fst (_read_pdf_file W file [])) as [e|x]; [destruct e|];
    apply Ht0.
Qed.

(** A text [read_file] returns is never blank: it has a character that is
    not white space, whichever reader produced it. *)
Theorem read_file_returns_visible_text :
  forall (W : World) (file : UploadFile) (t t' : trace) (text : str),
    read_file W file t = (Return text, t') ->
    forallb isspace text = false /\ truthy (strip text) = true.
Proof.
  intros W file t t' text H.
  pose proof (read_file_visible W file t H) as Hv.
  split; [exact Hv|]. rewrite truthy_strip, Hv. reflexivity.
Qed.

Lemma read_file_returns_visible_text_witness :
  forallb isspace (lit " one" ++ nl ++ lit "two ") = false
  /\ truthy (strip (lit " one" ++ nl ++ lit "two ")) = true.
Proof.
  apply (@read_file_returns_visible_text Demo.world
           (Demo.upload "guide.docx" (Demo.ascii_bytes " one" ++ [x0a]
                                      ++ Demo.ascii_bytes "two ")) []
           [ReadFileCalled (Some (lit "guide.docx")); FileClosed]).
  reflexivity.
Defined.

(** The extension doc passes the dispatch of [read_file] and then fails:
    the reader it names does not exist, the lookup error is caught by the
    second [except] clause and the caller gets a 500, the file closed. *)
Theorem doc_uploads_have_no_reader :
  forall (W : World) (file : UploadFile) (name : str) (t : trace),
    filename file = Some name ->
    truthy name = true ->
    contains_char 46 (str_lower W name) = true ->
    last_segment 46 (str_lower W name) = lit "doc" ->
    read_file W file t =
      (Raise (HTTPException 500
                (lit "Error processing file: type object 'FileService' has no attribute '_read_doc_file'")),
       t ++ [ReadFileCalled (Some name); FileClosed]).
Proof.
  intros W file name t Hname Htruthy Hdot Hext.
  enter_read_file Hname Htruthy Hdot. rewrite Hext.
  change (str_eqb (lit "doc") (lit "txt")) with false.
  change (str_eqb (lit "doc") (lit "docx")) with false.
  change (str_eqb (lit "doc") (lit "doc")) with true.
  cbv iota. unfold _read_doc_file, raise. rewrite <- app_assoc. reflexivity.
Qed.

Lemma doc_uploads_have_no_reader_witness :
  Http.status_of
    (fst (read_file Demo.world (Demo.upload "Report.DOC" [xd0; xcf]) []))
  = 500%Z.
Proof.
  rewrite (@doc_uploads_have_no_reader Demo.world
             (Demo.upload "Report.DOC" [xd0; xcf]) (lit "Report.DOC") []
             eq_refl eq_refl eq_refl eq_refl).
  reflexivity.
Defined.

(** An extension that is none of txt, docx, doc, pdf is refused with a 400
    that names it and lists the four; the file is closed. *)
Theorem unknown_extension_is_named :
  forall (W : World) (file : UploadFile) (name : str) (t : trace),
    filename file = Some name ->
    truthy name = true ->
    contains_char 46 (str_lower W name) = true ->
    ~ In (last_segment 46 (str_lower W name))
         [lit "txt"; lit "docx"; lit "doc"; lit "pdf"] ->
    read_file W file t =
      (Raise (HTTPException 400
                (lit "Unsupported file format: "
                 ++ last_segment 46 (str_lower W name)
                 ++ lit ". Supported: txt, docx, doc, pdf")),
       t ++ [ReadFileCalled (Some name); FileClosed]).
Proof.
  intros W file name t Hname Htruthy Hdot Hext.
  enter_read_file Hname Htruthy Hdot.
  assert (Hne : forall x, In x [lit "txt"; lit "docx"; lit "doc"; lit "pdf"] ->
                  str_eqb (last_segment 46 (str_lower W name)) x = false).
  { intros x Hx. destruct (str_eqb _ x) eqn:E; [|reflexivity].
    apply str_eqb_eq in E. rewrite E in Hext. contradiction. }
  rewrite !Hne by (simpl; auto).
  unfold raise. rewrite <- app_assoc. reflexivity.
Qed.

Lemma unknown_extension_is_named_witness :
  read_file Demo.world (Demo.upload "archive.tar.GZ" [x1f; x8b]) [] =
    (Raise (HTTPException 400
              (lit "Unsupported file format: gz. Supported: txt, docx, doc, pdf")),
     [ReadFileCalled (Some (lit "archive.tar.GZ")); FileClosed]).
Proof.
  apply (@unknown_extension_is_named Demo.world
           (Demo.upload "archive.tar.GZ" [x1f; x8b]) (lit "archive.tar.GZ") []
           eq_refl eq_refl eq_refl).
  simpl. intros [H|[H|[H|[H|[]]]]]; discriminate H.
Defined.

(** A failure of a document library is answered 500 and never passed on
    as such: a DOCX that does not parse gives "Error processing file", a
    PDF that does not parse, or one of whose pages fails to extract, gives
    "Failed to process PDF file", each followed by the text of the error. *)
Theorem library_failures_become_500 :
  forall (W : World) (file : UploadFile) (name : str) (t : trace) (e : exn),
    filename file = Some name ->
    truthy name = true ->
    contains_char 46 (str_lower W name) = true ->
    is_http e = false ->
    (last_segment 46 (str_lower W name) = lit "docx" ->
     docx_paragraphs W (content file) = Raise e ->
     read_file W file t =
       (Raise (HTTPException 500
                 (lit "Error processing file: " ++ str_of_exn e)),
        t ++ [ReadFileCalled (Some name); FileClosed]))
    /\ (last_segment 46 (str_lower W name) = lit "pdf" ->
        pdf_pages W (content file) = Raise e ->
        read_file W file t =
          (Raise (HTTPException 500
                    (lit "Failed to process PDF file: " ++ str_of_exn e)),
           t ++ [ReadFileCalled (Some name); FileClosed]))
    /\ (forall before page after texts,
          last_segment 46 (str_lower W name) = lit "pdf" ->
          pdf_pages W (content file) = Return (before ++ page :: after) ->
          List.map (extract_text W) before = List.map Return texts ->
          extract_text W page = Raise e ->
          read_file W file t =
            (Raise (HTTPException 500
                      (lit "Failed to process PDF file: " ++ str_of_exn e)),
             t ++ [ReadFileCalled (Some name); FileClosed])).
Proof.
  intros W file name t e Hname Htruthy Hdot He.
  split; [|split].
  - intros Hext Hlib. enter_read_file Hname Htruthy Hdot. rewrite Hext.
    change (str_eqb (lit "docx") (lit "txt")) with false.
    change (str_eqb (lit "docx") (lit "docx")) with true.
    cbv iota. unfold _read_docx_file, bind, lift. rewrite Hlib.
    destruct e; try discriminate He; unfold raise; rewrite <- app_assoc;
      reflexivity.
  - intros Hext Hlib. enter_read_file Hname Htruthy Hdot. rewrite Hext.
    change (str_eqb (lit "pdf") (lit "txt")) with false.
    change (str_eqb (lit "pdf") (lit "docx")) with false.
    change (str_eqb (lit "pdf") (lit "doc")) with false.
    change (str_eqb (lit "pdf") (lit "pdf")) with true.
    cbv iota. unfold _read_pdf_file, try_except, bind, lift. rewrite Hlib.
    destruct e; try discriminate He; unfold raise; rewrite <- app_assoc;
      reflexivity.
  - intros before page after texts Hext Hlib Hb Hp.
    enter_read_file Hname Htruthy Hdot. rewrite Hext.
    change (str_eqb (lit "pdf") (lit "txt")) with false.
    change (str_eqb (lit "pdf") (lit "docx")) with false.
    change (str_eqb (lit "pdf") (lit "doc")) with false.
    change (str_eqb (lit "pdf") (lit "pdf")) with true.
    cbv iota. unfold _read_pdf_file, try_except, bind, lift. rewrite Hlib.
    replace (List.length (before ++ page :: after) =? 0)%nat with false
      by (symmetry; apply Nat.eqb_neq; rewrite length_app; simpl; lia).
    rewrite (collect_pages_fails W before page after texts [] Hb Hp).
    destruct e; try discriminate He; unfold raise; rewrite <- app_assoc;
      reflexivity.
Qed.

Lemma library_failures_become_500_witness :
  read_file broken_world (Demo.upload "guide.pdf" [x25; x50]) [] =
    (Raise (HTTPException 500
              (lit "Failed to process PDF file: EOF marker not found")),
     [ReadFileCalled (Some (lit "guide.pdf")); FileClosed]).
Proof.
  apply (proj1 (proj2 (@library_failures_become_500 broken_world
           (Demo.upload "guide.pdf" [x25; x50]) (lit "guide.pdf") []
           (OtherError (lit "PdfReadError") (lit "EOF marker not found"))
           eq_refl eq_refl eq_refl eq_refl)) eq_refl eq_refl).
Defined.

(** A DOCX upload that parses is returned as its paragraphs joined by
    single newlines, empty paragraphs included, unless that text is blank:
    then it is refused with a 400.  The file is closed on both paths. *)
Theorem docx_paragraphs_are_joined :
  forall (W : World) (file : UploadFile) (name : str) (t : trace)
         (paragraphs : list str),
    filename file = Some name ->
    truthy name = true ->
    contains_char 46 (str_lower W name) = true ->
    last_segment 46 (str_lower W name) = lit "docx" ->
    docx_paragraphs W (content file) = Return paragraphs ->
    read_file W file t =
      (if forallb isspace (join nl paragraphs)
       then Raise (HTTPException 400
                     (lit "No text content found in DOCX file"))
       else Return (join nl paragraphs),
       t ++ [ReadFileCalled (Some name); FileClosed]).
Proof.
  intros W file name t paragraphs Hname Htruthy Hdot Hext Hlib.
  enter_read_file Hname Htruthy Hdot. rewrite Hext.
  change (str_eqb (lit "docx") (lit "txt")) with false.
  change (str_eqb (lit "docx") (lit "docx")) with true.
  cbv iota. unfold _read_docx_file, bind, lift. rewrite Hlib.
  rewrite truthy_strip, negb_involutive.
  destruct (forallb isspace (join nl paragraphs)); unfold raise, ret;
    rewrite <- app_assoc; reflexivity.
Qed.

Lemma docx_paragraphs_are_joined_witness :
  read_file Demo.world
    (Demo.upload "Guide.docx" (Demo.ascii_bytes "one" ++ [x0a; x0a]
                               ++ Demo.ascii_bytes "two")) [] =
    (Return (lit "one" ++ nl ++ nl ++ lit "two"),
     [ReadFileCalled (Some (lit "Guide.docx")); FileClosed]).
Proof.
  apply (@docx_paragraphs_are_joined Demo.world
           (Demo.upload "Guide.docx" (Demo.ascii_bytes "one" ++ [x0a; x0a]
                                      ++ Demo.ascii_bytes "two"))
           (lit "Guide.docx") [] [lit "one"; []; lit "two"]
           eq_refl eq_refl eq_refl eq_refl eq_refl).
Defined.

End ExtractorFacts.

(** ** Which encoding decides *)

Module TxtFacts.

Import FileService PyFacts Reading Notions.

Lemma usable_iso_is_latin1 (content : bytes) :
  usable_decode content (lit "iso-8859-1") =
  usable_decode content (lit "latin-1").
Proof.
  unfold usable_decode, decode.
  rewrite lookup_iso8859_1, lookup_latin1. reflexivity.
Qed.

Lemma usable_utf8 (content : bytes) :
  usable_decode content (lit "utf-8") =
    match utf8_decode content with
    | Some text => if forallb isspace text then None else Some text
    | None => None
    end.
Proof.
  unfold usable_decode, decode. rewrite lookup_utf8.
  destruct (utf8_decode content); reflexivity.
Qed.

Lemma usable_latin1 (content : bytes) :
  usable_decode content (lit "latin-1") =
    if forallb isspace (List.map Byte.to_N content) then None
    else Some (List.map Byte.to_N content).
Proof.
  unfold usable_decode, decode. rewrite lookup_latin1. reflexivity.
Qed.

(** Bytes below 128 are their own UTF-8 reading. *)
Lemma utf8_decode_ascii (bs : list N) :
  Forall (fun b => (b < 128)%N) bs -> utf8_decode_N bs = Some bs.
Proof.
  induction 1 as [|b bs Hb _ IH]; [reflexivity|].
  cbn [utf8_decode_N].
  apply N.ltb_lt in Hb. rewrite Hb, IH. reflexivity.
Qed.

(** The fourth encoding of the list never decides: iso-8859-1 is Latin-1
    under another name, tried after Latin-1 has been found blank, so text
    extraction behaves as if the list were utf-8, latin-1, cp1252. *)
Theorem fourth_encoding_never_decides :
  forall (file : UploadFile) (t : trace),
    _read_txt_file file t =
      (match first_usable_decode [lit "utf-8"; lit "latin-1"; lit "cp1252"]
               (content file) with
       | Some text => Return text
       | None => Raise DecodeError
       end, t).
Proof.
  intros file t. rewrite TxtExtraction.read_txt_file_spec.
  unfold first_usable_decode, encodings. cbn [List.find].
  rewrite usable_iso_is_latin1.
  destruct (usable_decode (content file) (lit "utf-8")); [reflexivity|].
  destruct (usable_decode (content file) (lit "latin-1")); [reflexivity|].
  destruct (usable_decode (content file) (lit "cp1252")); reflexivity.
Qed.

(** A buffer that is valid UTF-8 with a visible character is returned in
    its UTF-8 reading, whatever the later encodings would make of it; in
    particular a buffer of bytes below 128 with a visible character is
    returned byte for byte. *)
Theorem utf8_reading_wins :
  forall (file : UploadFile) (t : trace),
    (forall text,
        utf8_decode (content file) = Some text ->
        forallb isspace text = false ->
        _read_txt_file file t = (Return text, t))
    /\ (Forall (fun b => (Byte.to_N b < 128)%N) (content file) ->
        forallb isspace (List.map Byte.to_N (content file)) = false ->
        _read_txt_file file t =
          (Return (List.map Byte.to_N (content file)), t)).
Proof.
  intros file t.
  assert (H : forall text,
             utf8_decode (content file) = Some text ->
             forallb isspace text = false ->
             _read_txt_file file t = (Return text, t)).
  { intros text Hd Hv. rewrite TxtExtraction.read_txt_file_spec.
    unfold first_usable_decode, encodings. cbn [List.find].
    rewrite usable_utf8, Hd, Hv. cbv beta iota.
    rewrite usable_utf8, Hd, Hv. reflexivity. }
  split; [exact H|].
  intros Hascii Hv. apply H; [|exact Hv].
  unfold utf8_decode. apply utf8_decode_ascii.
  apply Forall_map. exact Hascii.
Qed.

Lemma utf8_reading_wins_witness :
  _read_txt_file (Demo.upload "guide.txt" [xc3; xa9; x74; xc3; xa9]) [] =
    (Return [233%N; 116%N; 233%N], []).
Proof.
  apply (proj1 (utf8_reading_wins
                  (Demo.upload "guide.txt" [xc3; xa9; x74; xc3; xa9]) [])).
  - reflexivity.
  - reflexivity.
Defined.

(** A buffer that is not valid UTF-8 and whose Latin-1 reading has a
    visible character is returned in its Latin-1 reading, byte for byte:
    Windows-1252 is never consulted for it, so the bytes 0x80 to 0x9F of
    a Windows text come out as the control characters U+0080 to U+009F. *)
Theorem latin1_shadows_cp1252 :
  forall (file : UploadFile) (t : trace),
    utf8_decode (content file) = None ->
    forallb isspace (List.map Byte.to_N (content file)) = false ->
    _read_txt_file file t = (Return (List.map Byte.to_N (content file)), t).
Proof.
  intros file t Hd Hv. rewrite TxtExtraction.read_txt_file_spec.
  unfold first_usable_decode, encodings. cbn [List.find].
  rewrite usable_utf8, Hd, usable_latin1, Hv. cbv beta iota.
  rewrite usable_latin1, Hv. reflexivity.
Qed.

Lemma latin1_shadows_cp1252_witness :
  _read_txt_file (Demo.upload "quote.txt" [x93; x41; x94]) [] =
    (Return [147%N; 65%N; 148%N], [])
  /\ cp1252_decode [x93; x41; x94] = Some [8220%N; 65%N; 8221%N].
Proof.
  split; [|reflexivity].
  apply (@latin1_shadows_cp1252 (Demo.upload "quote.txt" [x93; x41; x94]) []).
  - reflexivity.
  - reflexivity.
Defined.

End TxtFacts.

(** ** The renderer as a whole *)

Module RendererFacts.

Import FileService PyFacts Layout Notions.

Lemma chr_in_range (i : Z) :
  (0 <= i)%Z -> (i < max_options)%Z -> chr (65 + i) = Some (Z.to_N (65 + i)).
Proof.
  unfold max_options, chr. intros H0 H1.
  replace ((0 <=? 65 + i) && (65 + i <=? 1114111))%Z with true; [reflexivity|].
  symmetry. apply andb_true_iff. split; apply Z.leb_le; lia.
Qed.

Lemma chr_out_of_range (i : Z) :
  (max_options <= i)%Z -> chr (65 + i) = None.
Proof.
  unfold max_options, chr. intros H.
  replace (65 + i <=? 1114111)%Z with false;
    [rewrite andb_false_r; reflexivity|].
  symmetry. apply Z.leb_gt. lia.
Qed.

Lemma write_options_coded (options : list str) :
  forall (i : Z) (buffer : str),
    (0 <= i)%Z ->
    (i + Z.of_nat (List.length options) <= max_options)%Z ->
    write_options i options buffer =
      Return (buffer ++ coded_option_lines_from i options).
Proof.
  induction options as [|option rest IH]; intros i buffer H0 H1.
  - simpl. rewrite app_nil_r. reflexivity.
  - cbn [List.length] in H1. cbn [write_options coded_option_lines_from].
    rewrite chr_in_range by lia. rewrite IH by lia.
    unfold write. rewrite <- !app_assoc. reflexivity.
Qed.

Lemma write_options_overflow (options : list str) :
  forall (i : Z) (buffer : str),
    (0 <= i)%Z -> (i <= max_options)%Z ->
    (max_options < i + Z.of_nat (List.length options))%Z ->
    write_options i options buffer = Raise ChrValueError.
Proof.
  induction options as [|option rest IH]; intros i buffer H0 H1 H2.
  - simpl in H2. lia.
  - cbn [List.length] in H2. cbn [write_options].
    destruct (Z.eq_dec i max_options) as [->|Hne].
    + rewrite chr_out_of_range by lia. reflexivity.
    + rewrite chr_in_range by lia. apply IH; lia.
Qed.

(** A question is written unless [chr] fails on one of its options. *)
Lemma write_question_total (fmt : EnumFormat) (q : Question) (buffer : str) :
  (Z.of_nat (List.length (options_of q)) <= max_options)%Z ->
  exists buffer', write_question fmt q buffer = Return buffer'.
Proof.
  intros H. unfold write_question.
  destruct q as [i d t o a e | i d t a e | i d t a | i d t g];
    cbn [options_of] in H.
  - change (type_is (MultipleChoiceQuestion i d t o a e) "Multiple Choice")
      with true.
    change (type_is (MultipleChoiceQuestion i d t o a e) "Essay") with false.
    cbn [q_options rbind].
    rewrite write_options_coded by lia. cbn [rbind]. eexists; reflexivity.
  - eexists; reflexivity.
  - eexists; reflexivity.
  - eexists; reflexivity.
Qed.

Lemma write_question_fails_by_chr (fmt : EnumFormat) (q : Question)
    (buffer : str) (e : exn) :
  write_question fmt q buffer = Raise e ->
  e = ChrValueError /\
  (max_options < Z.of_nat (List.length (options_of q)))%Z.
Proof.
  intros H.
  destruct (Z_le_gt_dec (Z.of_nat (List.length (options_of q))) max_options)
    as [Hle|Hgt].
  - destruct (write_question_total fmt q buffer Hle) as [b Hb]. congruence.
  - split; [|lia]. revert H. unfold write_question.
    destruct q as [i d t o a x | i d t a x | i d t a | i d t g];
      cbn [options_of] in Hgt; try (simpl in Hgt; unfold max_options in Hgt; lia).
    change (type_is (MultipleChoiceQuestion i d t o a x) "Multiple Choice")
      with true.
    cbn [q_options rbind].
    rewrite write_options_overflow by (unfold max_options in *; lia).
    cbn [rbind]. congruence.
Qed.

Lemma write_questions_total (fmt : EnumFormat) (qs : list Question) :
  forall buffer,
    (forall q, In q qs ->
       (Z.of_nat (List.length (options_of q)) <= max_options)%Z) ->
    exists buffer', write_questions fmt qs buffer = Return buffer'.
Proof.
  induction qs as [|q qs IH]; intros buffer H.
  - eexists; reflexivity.
  - cbn [write_questions].
    destruct (write_question_total fmt q buffer) as [b Hb];
      [apply H; left; reflexivity|].
    rewrite Hb. cbn [rbind]. apply IH. intros q' Hq'. apply H. right. exact Hq'.
Qed.

Lemma write_questions_fail_by_chr (fmt : EnumFormat) (qs : list Question) :
  forall buffer e,
    write_questions fmt qs buffer = Raise e ->
    e = ChrValueError /\
    exists q, In q qs /\
      (max_options < Z.of_nat (List.length (options_of q)))%Z.
Proof.
  induction qs as [|q qs IH]; intros buffer e H.
  - discriminate.
  - cbn [write_questions] in H.
    destruct (write_question fmt q buffer) as [e0|b] eqn:E; cbn [rbind] in H.
    + injection H as <-. destruct (write_question_fails_by_chr _ _ _ E).
      split; [assumption|]. exists q. split; [left; reflexivity|assumption].
    + destruct (IH _ _ H) as [He (q' & Hin & Hq')].
      split; [exact He|]. exists q'. split; [right; exact Hin|exact Hq'].
Qed.

Lemma write_questions_overflow (fmt : EnumFormat) (qs : list Question) :
  forall buffer q,
    In q qs ->
    (max_options < Z.of_nat (List.length (options_of q)))%Z ->
    write_questions fmt qs buffer = Raise ChrValueError.
Proof.
  induction qs as [|q0 qs IH]; intros buffer q Hin Hq; [destruct Hin|].
  cbn [write_questions].
  destruct (write_question fmt q0 buffer) as [e0|b] eqn:E; cbn [rbind].
  - destruct (write_question_fails_by_chr _ _ _ E) as [-> _]. reflexivity.
  - destruct Hin as [<-|Hin].
    + exfalso.
      destruct (Z_le_gt_dec (Z.of_nat (List.length (options_of q0)))
                  max_options) as [Hle|Hgt]; [lia|].
      destruct q0 as [i d t o a x | i d t a x | i d t a | i d t g];
        cbn [options_of] in *;
        try (simpl in Hq; unfold max_options in Hq; lia).
      revert E. unfold write_question.
      change (type_is (MultipleChoiceQuestion i d t o a x) "Multiple Choice")
        with true.
      cbn [q_options rbind].
      rewrite write_options_overflow by (unfold max_options in *; lia).
      discriminate.
    + exact (IH b q Hin Hq).
Qed.

Lemma write_question_forget (fmt : EnumFormat) (q : Question) (buffer : str) :
  write_question fmt (forget_explanation q) buffer =
  write_question fmt q buffer.
Proof. destruct q; reflexivity. Qed.

Lemma write_answer_forget (q : Question) (buffer : str) :
  write_answer (forget_explanation q) buffer = write_answer q buffer.
Proof. destruct q; reflexivity. Qed.

Lemma write_questions_forget (fmt : EnumFormat) (qs : list Question) :
  forall buffer,
    write_questions fmt (List.map forget_explanation qs) buffer =
    write_questions fmt qs buffer.
Proof.
  induction qs as [|q qs IH]; intros buffer; [reflexivity|].
  cbn [List.map write_questions]. rewrite write_question_forget.
  destruct (write_question fmt q buffer); cbn [rbind]; [reflexivity|apply IH].
Qed.

Lemma write_answers_forget (qs : list Question) :
  forall buffer,
    write_answers (List.map forget_explanation qs) buffer =
    write_answers qs buffer.
Proof.
  induction qs as [|q qs IH]; intros buffer; [reflexivity|].
  cbn [List.map write_answers]. rewrite write_answer_forget.
  destruct (write_answer q buffer); cbn [rbind]; [reflexivity|apply IH].
Qed.

Lemma replace_char_drops (old new : N) (s : str) :
  old <> new -> ~ In old (replace_char old new s).
Proof.
  intros Hne. induction s as [|c s IH]; simpl; [tauto|].
  intros [H|H]; [|exact (IH H)].
  destruct (N.eqb_spec c old); congruence.
Qed.

(** The label of an option is the code point 65 plus its index, for as
    many options as [chr] can label: past Z come the characters that
    follow it, with no wrap-around to A; with more than 1,114,047 options
    the loop ends in [ValueError]. *)
Theorem option_labels_follow_code_points :
  forall (options : list str) (buffer : str),
    ((Z.of_nat (List.length options) <= max_options)%Z ->
     write_options 0 options buffer =
       Return (buffer ++ coded_option_lines_from 0 options))
    /\ ((max_options < Z.of_nat (List.length options))%Z ->
        write_options 0 options buffer = Raise ChrValueError).
Proof.
  intros options buffer. split; intros H.
  - apply write_options_coded; lia.
  - apply write_options_overflow; unfold max_options in *; lia.
Qed.

Lemma option_labels_follow_code_points_witness :
  write_options 0 (repeat (lit "x") 28) [] =
    Return (coded_option_lines_from 0 (repeat (lit "x") 26)
            ++ lit "[. x" ++ nl ++ [92%N] ++ lit ". x" ++ nl).
Proof.
  apply (proj1 (option_labels_follow_code_points (repeat (lit "x") 28) [])).
  unfold max_options. simpl. lia.
Defined.

(** Rendering fails only through [chr]: it returns a text whenever every
    question has at most 1,114,047 options, raises [ValueError] when some
    question has more, and raises nothing else. *)
Theorem render_fails_only_past_chr :
  forall (fmt : EnumFormat) (exam : Exam),
    ((forall q, In q (questions exam) ->
        (Z.of_nat (List.length (options_of q)) <= max_options)%Z) ->
     exists text, render fmt exam = Return text)
    /\ (forall q, In q (questions exam) ->
          (max_options < Z.of_nat (List.length (options_of q)))%Z ->
          render fmt exam = Raise ChrValueError)
    /\ (forall e, render fmt exam = Raise e -> e = ChrValueError).
Proof.
  intros fmt exam. rewrite ExportRenderer.render_sections.
  split; [|split].
  - intros H.
    destruct (write_questions_total fmt (questions exam) (exam_heading exam) H)
      as [b Hb].
    rewrite Hb. cbn [rbind]. eexists; reflexivity.
  - intros q Hin Hq.
    rewrite (write_questions_overflow fmt (questions exam) _ q Hin Hq).
    reflexivity.
  - intros e.
    destruct (write_questions fmt (questions exam) (exam_heading exam))
      as [e0|b] eqn:E; cbn [rbind]; [|discriminate].
    intros [= <-]. exact (proj1 (write_questions_fail_by_chr _ _ _ E)).
Qed.

Lemma render_fails_only_past_chr_witness :
  exists text, render FormatMember Demo.sample_exam = Return text.
Proof.
  apply (proj1 (render_fails_only_past_chr FormatMember Demo.sample_exam)).
  intros q Hq. simpl in Hq. unfold max_options.
  repeat (destruct Hq as [<-|Hq]; [simpl; lia|]).
  destruct Hq.
Defined.

(** The export shows neither the id of the exam nor the explanation of
    any question: two exams that differ in these only are rendered alike,
    under every file type. *)
Theorem export_ignores_id_and_explanations :
  forall (fmt : EnumFormat) (exam : Exam) (file_type : str),
    render fmt (forget_exam exam) = render fmt exam
    /\ create_file_stream fmt (forget_exam exam) file_type =
       create_file_stream fmt exam file_type.
Proof.
  intros fmt exam file_type.
  assert (H : render fmt (forget_exam exam) = render fmt exam).
  { unfold render. cbn [forget_exam exam_title total_questions difficulty
      estimated_completion_minutes question_types questions].
    rewrite write_questions_forget.
    match goal with
    | |- rbind ?r _ = _ => destruct r; cbn [rbind]; [reflexivity|]
    end.
    apply write_answers_forget. }
  split; [exact H|]. unfold create_file_stream. rewrite H. reflexivity.
Qed.

(** The download endpoint serves doc and txt and nothing else: any other
    [file_type] is refused with a 400 before anything is rendered, and a
    response that is returned carries the rendered text and a media
    type. *)
Theorem download_serves_doc_and_txt_only :
  forall (fmt : EnumFormat) (exam : Exam) (file_type : str),
    (file_type <> lit "doc" -> file_type <> lit "txt" ->
     Main.download_exam fmt exam file_type =
       Raise (HTTPException 400 (lit "Invalid file type")))
    /\ (forall response,
          Main.download_exam fmt exam file_type = Return response ->
          (file_type = lit "doc" \/ file_type = lit "txt")
          /\ render fmt exam = Return (body response)
          /\ media_type response <> None).
Proof.
  intros fmt exam file_type. unfold Main.download_exam.
  cbn [List.map OutputFileType_members OutputFileType_value existsb].
  split.
  - intros Hdoc Htxt.
    destruct (str_eqb file_type (lit "doc")) eqn:E1;
      [apply ExtractorFacts.str_eqb_eq in E1; contradiction|].
    destruct (str_eqb file_type (lit "txt")) eqn:E2;
      [apply ExtractorFacts.str_eqb_eq in E2; contradiction|].
    reflexivity.
  - intros response.
    destruct (str_eqb file_type (lit "doc")) eqn:E1.
    + apply ExtractorFacts.str_eqb_eq in E1. subst file_type.
      cbn [orb negb]. unfold create_file_stream.
      destruct (render fmt exam) as [e|text]; cbn [rbind]; [discriminate|].
      change (dict_get mime_map (lit "doc"))
        with (Some (lit "application/msword")).
      rewrite ExportRenderer.new_response_of_title by reflexivity.
      destruct (latin1_encodable (exam_title exam)); [|discriminate].
      intros [= <-]. cbn [body media_type].
      split; [left; reflexivity|]. split; [reflexivity|discriminate].
    + destruct (str_eqb file_type (lit "txt")) eqn:E2; [|discriminate].
      apply ExtractorFacts.str_eqb_eq in E2. subst file_type.
      cbn [orb negb]. unfold create_file_stream.
      destruct (render fmt exam) as [e|text]; cbn [rbind]; [discriminate|].
      change (dict_get mime_map (lit "txt")) with (Some (lit "text/plain")).
      rewrite ExportRenderer.new_response_of_title by reflexivity.
      destruct (latin1_encodable (exam_title exam)); [|discriminate].
      intros [= <-]. cbn [body media_type].
      split; [right; reflexivity|]. split; [reflexivity|discriminate].
Qed.

Lemma download_serves_doc_and_txt_only_witness :
  Main.download_exam FormatValue Demo.sample_exam (lit "docx") =
    Raise (HTTPException 400 (lit "Invalid file type")).
Proof.
  apply (proj1 (download_serves_doc_and_txt_only FormatValue Demo.sample_exam
                  (lit "docx"))); discriminate.
Defined.

(** The file name offered for download is the title with every space
    turned into an underscore, a dot and the file type: it has no space
    unless the file type has one. *)
Theorem export_filename_has_no_space :
  forall (fmt : EnumFormat) (exam : Exam) (file_type : str)
         (response : StreamingResponse),
    create_file_stream fmt exam file_type = Return response ->
    ~ In 32%N file_type ->
    exists name,
      headers response =
        [(lit "Content-Disposition", lit "attachment; filename=" ++ name)]
      /\ name = replace_char 32 95 (exam_title exam) ++ lit "." ++ file_type
      /\ ~ In 32%N name
      /\ List.length name =
           (List.length (exam_title exam) + 1 + List.length file_type)%nat.
Proof.
  intros fmt exam file_type response H Hft.
  unfold create_file_stream in H.
  destruct (render fmt exam) as [e|text]; cbn [rbind] in H; [discriminate|].
  unfold new_StreamingResponse in H.
  match type of H with
  | (if ?c then _ else _) = _ => destruct c; [|discriminate]
  end.
  injection H as <-. cbn [headers].
  exists (replace_char 32 95 (exam_title exam) ++ lit "." ++ file_type).
  split; [reflexivity|]. split; [reflexivity|]. split.
  - intros Hin. apply in_app_or in Hin. destruct Hin as [Hin|Hin].
    + revert Hin. apply replace_char_drops. discriminate.
    + apply in_app_or in Hin. destruct Hin as [[Hin|[]]|Hin];
        [discriminate Hin|contradiction].
  - rewrite !length_app. unfold replace_char. rewrite length_map.
    simpl. lia.
Qed.

Lemma export_filename_has_no_space_witness :
  exists name,
    name = lit "Week_1_Quiz.txt" /\ ~ In 32%N name.
Proof.
  destruct (@export_filename_has_no_space FormatValue Demo.sample_exam
              (lit "txt")
              {| body := match render FormatValue Demo.sample_exam with
                         | Return text => text
                         | Raise _ => []
                         end;
                 media_type := Some (lit "text/plain");
                 headers := [(lit "Content-Disposition",
                              lit "attachment; filename=Week_1_Quiz.txt")] |}
              eq_refl)
    as (name & _ & Hname & Hspace & _).
  - simpl. intros [H|[H|[H|[]]]]; discriminate H.
  - exists name. split; [exact Hname|exact Hspace].
Defined.

End RendererFacts.

(** ** The generation client and the endpoint as a whole *)

Module EndpointFacts.

Import PyFacts Boundary Notions.

(** *** File names *)

Lemma startswith_app (p : str) :
  forall s, startswith s p = true -> exists r, s = p ++ r.
Proof.
  induction p as [|x p IH]; intros s H.
  - exists s. reflexivity.
  - destruct s as [|c s]; [discriminate|]. simpl in H.
    apply andb_true_iff in H. destruct H as [Hc Hs].
    apply N.eqb_eq in Hc. subst c.
    destruct (IH s Hs) as [r ->]. exists r. reflexivity.
Qed.

Lemma endswith_app (s suffix : str) :
  endswith s suffix = true -> exists pre, s = pre ++ suffix.
Proof.
  unfold endswith. intros H.
  destruct (startswith_app _ _ H) as [r Hr].
  exists (rev r). rewrite <- (rev_involutive s), Hr, rev_app_distr.
  rewrite rev_involutive. reflexivity.
Qed.

Lemma last_segment_aux_plain (c : N) (ext : str) :
  forall acc, contains_char c ext = false ->
    last_segment_aux c ext acc = rev acc ++ ext.
Proof.
  induction ext as [|x ext IH]; intros acc H.
  - simpl. rewrite app_nil_r. reflexivity.
  - simpl in H. apply orb_false_iff in H. destruct H as [Hx Hext].
    cbn [last_segment_aux]. rewrite N.eqb_sym, Hx.
    rewrite (IH _ Hext). simpl. rewrite <- app_assoc. reflexivity.
Qed.

Lemma last_segment_aux_after (c : N) (ext : str) (pre : str) :
  forall acc, contains_char c ext = false ->
    last_segment_aux c (pre ++ c :: ext) acc = ext.
Proof.
  induction pre as [|x pre IH]; intros acc H.
  - cbn [app last_segment_aux]. rewrite N.eqb_refl.
    apply (last_segment_aux_plain c ext [] H).
  - cbn [app last_segment_aux]. destruct (N.eqb x c); apply IH; exact H.
Qed.

(** A name that ends in a dot and a dot-free extension has that
    extension as its last segment. *)
Lemma endswith_extension (s ext : str) :
  contains_char 46 ext = false ->
  endswith s (46%N :: ext) = true ->
  contains_char 46 s = true /\ last_segment 46 s = ext.
Proof.
  intros Hext H. destruct (endswith_app _ _ H) as [pre ->]. split.
  - unfold contains_char. rewrite existsb_app. simpl.
    apply orb_true_r.
  - apply last_segment_aux_after. exact Hext.
Qed.

(** *** The generation client *)

Section Client.

Variable W : World.
Variables (n : Z) (d : str) (v : json) (guide info : str).

Lemma build_prompt_raises (e : exn) :
  GeminiService.build_prompt n d v guide info = Raise e ->
  exists msg, e = OtherError (lit "TypeError") msg.
Proof.
  unfold GeminiService.build_prompt.
  destruct (GeminiService.iterate v) as [e0|items] eqn:Ei; cbn [rbind].
  - intros [= <-]. revert Ei. destruct v; simpl; intros [= <-];
      eexists; reflexivity.
  - destruct (GeminiService.expect_strs items) as [e0|labels] eqn:El;
      cbn [rbind]; [|discriminate].
    intros [= <-]. clear Ei. revert e0 El.
    induction items as [|item items IH]; intros e0; [discriminate|].
    destruct item; simpl; try (intros [= <-]; eexists; reflexivity).
    destruct (GeminiService.expect_strs items) as [e1|l]; cbn [rbind];
      [|discriminate].
    intros [= <-]. apply IH. reflexivity.
Qed.

Lemma gemini_without_prompt (e : exn) (t : trace) :
  GeminiService.build_prompt n d v guide info = Raise e ->
  GeminiService.generate_exam W n d v guide info t =
    (Raise (RuntimeError
              (lit "An unexpected error occurred during Gemini API call: "
               ++ str_of_exn e)), t).
Proof.
  intros H. destruct (build_prompt_raises H) as [msg ->].
  unfold GeminiService.generate_exam, try_except, bind, lift.
  rewrite H. reflexivity.
Qed.

Lemma gemini_with_prompt (prompt : str) (t : trace) :
  GeminiService.build_prompt n d v guide info = Return prompt ->
  GeminiService.generate_exam W n d v guide info t =
    (match generate_content W prompt with
     | Return response => Return response
     | Raise (APIError code message) =>
         Raise (RuntimeError
                  (lit "Gemini API error occurred (status "
                   ++ str_of_int code ++ lit "): " ++ message))
     | Raise e =>
         Raise (RuntimeError
                  (lit "An unexpected error occurred during Gemini API call: "
                   ++ str_of_exn e))
     end, t ++ [GeminiCalled prompt]).
Proof.
  intros H.
  unfold GeminiService.generate_exam, try_except, bind, lift, emit.
  rewrite H. destruct (generate_content W prompt) as [e|response].
  - destruct e; reflexivity.
  - reflexivity.
Qed.

End Client.

Lemma expect_strs_ok (items : list json) :
  (exists labels, GeminiService.expect_strs items = Return labels) <->
  forallb (fun item => match item with JStr _ => true | _ => false end)
    items = true.
Proof.
  induction items as [|item items IH].
  - split; [reflexivity|]. intros _. eexists; reflexivity.
  - destruct item; simpl;
      try (split; [intros [l H]; discriminate H|discriminate]).
    rewrite <- IH. split.
    + intros [l H].
      destruct (GeminiService.expect_strs items) as [e|l']; [discriminate|].
      eexists; reflexivity.
    + intros [l H]. rewrite H. eexists; reflexivity.
Qed.

Lemma build_prompt_joinable (n : Z) (d : str) (v : json) (guide info : str) :
  (exists prompt, GeminiService.build_prompt n d v guide info = Return prompt)
  <-> joinable v = true.
Proof.
  unfold GeminiService.build_prompt.
  destruct v as [| b | r | s | items | members]; simpl;
    try (split; [intros [p H]; discriminate H|discriminate]).
  - split; [reflexivity|]. intros _.
    destruct (GeminiService.expect_strs (List.map (fun c => JStr [c]) s))
      as [e|labels] eqn:E.
    + exfalso.
      assert (H : exists l, GeminiService.expect_strs
                              (List.map (fun c => JStr [c]) s) = Return l).
      { apply expect_strs_ok. clear E. induction s; simpl; auto. }
      destruct H as [l H]. congruence.
    + eexists; reflexivity.
  - rewrite <- expect_strs_ok. split.
    + intros [p H].
      destruct (GeminiService.expect_strs items) as [e|l]; [discriminate|].
      eexists; reflexivity.
    + intros [l H]. rewrite H. eexists; reflexivity.
  - split; [reflexivity|]. intros _.
    destruct (GeminiService.expect_strs
                (List.map (fun kv => JStr (fst kv)) members))
      as [e|labels] eqn:E.
    + exfalso.
      assert (H : exists l, GeminiService.expect_strs
                  (List.map (fun kv => JStr (fst kv)) members) = Return l).
      { apply expect_strs_ok. clear E. induction members; simpl; auto. }
      destruct H as [l H]. congruence.
    + eexists; reflexivity.
Qed.

(** A name the extension check of the endpoint accepts has a dot, and the
    dispatch of the extractor reads its extension as docx, pdf or txt: an
    upload that comes through the endpoint never meets the branches of
    [read_file] for a missing extension, for doc or for an unknown
    format. *)
Theorem accepted_names_reach_a_reader :
  forall (W : World) (name : str),
    supported W name = true ->
    contains_char 46 (str_lower W name) = true
    /\ In (last_segment 46 (str_lower W name))
         [lit "docx"; lit "pdf"; lit "txt"].
Proof.
  intros W name. unfold supported, Main.supported_extensions.
  cbn [List.map existsb InputFileType_members InputFileType_value].
  change (lit "." ++ lit "docx") with (46%N :: lit "docx").
  change (lit "." ++ lit "pdf") with (46%N :: lit "pdf").
  change (lit "." ++ lit "txt") with (46%N :: lit "txt").
  intros H.
  apply orb_true_iff in H. destruct H as [H|H].
  { destruct (endswith_extension _ (lit "docx") eq_refl H) as [Hd He].
    split; [exact Hd|]. rewrite He. simpl. auto. }
  apply orb_true_iff in H. destruct H as [H|H].
  { destruct (endswith_extension _ (lit "pdf") eq_refl H) as [Hd He].
    split; [exact Hd|]. rewrite He. simpl. auto. }
  apply orb_true_iff in H. destruct H as [H|H]; [|discriminate].
  destruct (endswith_extension _ (lit "txt") eq_refl H) as [Hd He].
  split; [exact Hd|]. rewrite He. simpl. auto.
Qed.

Lemma accepted_names_reach_a_reader_witness :
  contains_char 46 (Demo.ascii_lower (lit "Unit.2.Guide.PDF")) = true
  /\ In (last_segment 46 (Demo.ascii_lower (lit "Unit.2.Guide.PDF")))
       [lit "docx"; lit "pdf"; lit "txt"].
Proof.
  apply (@accepted_names_reach_a_reader Demo.world (lit "Unit.2.Guide.PDF")).
  reflexivity.
Defined.

(** A prompt can be built exactly when the parsed [question_types] is an
    array of strings, a string or an object: any other JSON value (a
    number, a boolean, null, an array with an item that is no string) makes
    [str.join] raise. *)
Theorem prompt_needs_joinable_question_types :
  forall (n : Z) (d : str) (v : json) (guide info : str),
    (exists prompt,
        GeminiService.build_prompt n d v guide info = Return prompt)
    <-> joinable v = true.
Proof. exact build_prompt_joinable. Qed.

Lemma prompt_needs_joinable_question_types_witness :
  exists prompt,
    GeminiService.build_prompt 3 (lit "Hard")
      (JArr [JStr (lit "Essay"); JStr (lit "True/False")])
      (lit "Chapter one") [] = Return prompt.
Proof.
  apply (proj2 (prompt_needs_joinable_question_types 3 (lit "Hard")
                  (JArr [JStr (lit "Essay"); JStr (lit "True/False")])
                  (lit "Chapter one") [])).
  reflexivity.
Defined.

(** The generation client fails in one way only, with [RuntimeError],
    whatever the provider or the prompt builder raised; it calls the model
    at most once, and not at all when the prompt cannot be built. *)
Theorem client_fails_uniformly :
  forall (W : World) (n : Z) (d : str) (v : json) (guide info : str)
         (t t' : trace) (r : result (GenerateContentResponse (Parsed W))),
    GeminiService.generate_exam W n d v guide info t = (r, t') ->
    (forall e, r = Raise e -> exists msg, e = RuntimeError msg)
    /\ (joinable v = false -> t' = t /\ exists msg, r = Raise (RuntimeError msg))
    /\ (joinable v = true ->
        exists prompt,
          GeminiService.build_prompt n d v guide info = Return prompt
          /\ t' = t ++ [GeminiCalled prompt]).
Proof.
  intros W n d v guide info t t' r H.
  destruct (GeminiService.build_prompt n d v guide info) as [e|prompt] eqn:E.
  - rewrite (@gemini_without_prompt W n d v guide info e t E) in H. injection H as <- <-.
    assert (Hj : joinable v = false).
    { destruct (joinable v) eqn:J; [|reflexivity].
      apply (build_prompt_joinable n d v guide info) in J.
      destruct J as [p Hp]. congruence. }
    split; [intros e0 [= <-]; eexists; reflexivity|].
    split; [intros _; split; [reflexivity|eexists; reflexivity]|].
    congruence.
  - rewrite (@gemini_with_prompt W n d v guide info prompt t E) in H. injection H as <- <-.
    assert (Hj : joinable v = true).
    { apply (build_prompt_joinable n d v guide info). eexists; exact E. }
    split.
    + intros e0. destruct (generate_content W prompt) as [e1|response];
        [|discriminate].
      destruct e1; intros [= <-]; eexists; reflexivity.
    + split; [congruence|]. intros _. exists prompt. split; reflexivity.
Qed.

Lemma client_fails_uniformly_witness :
  exists msg,
    RuntimeError
      (lit "Gemini API error occurred (status 429): quota exceeded")
    = RuntimeError msg.
Proof.
  apply (proj1 (@client_fails_uniformly broken_world 3 (lit "Hard") (JArr [])
                  (lit "Chapter one") [] []
                  [GeminiCalled
                     (match GeminiService.build_prompt 3 (lit "Hard")
                              (JArr []) (lit "Chapter one") [] with
                      | Return p => p
                      | Raise _ => []
                      end)]
                  _ eq_refl)).
  reflexivity.
Defined.

Lemma prepend_keeps (label g a r : str) :
  (exists before after, r = before ++ label ++ g ++ after) ->
  exists before after, a ++ r = before ++ label ++ g ++ after.
Proof.
  intros (before & after & ->). exists (a ++ before), after.
  apply app_assoc.
Qed.

(** The prompt carries the guide text as it was given. *)
Lemma build_prompt_quotes_guide (n : Z) (d : str) (v : json)
    (guide info prompt : str) :
  GeminiService.build_prompt n d v guide info = Return prompt ->
  exists before after,
    prompt = before ++ lit "- exam guide: " ++ guide ++ after.
Proof.
  unfold GeminiService.build_prompt.
  destruct (GeminiService.iterate v) as [e|items]; cbn [rbind];
    [discriminate|].
  destruct (GeminiService.expect_strs items) as [e|labels]; cbn [rbind];
    [discriminate|].
  intros H.
  apply (f_equal (fun r => match r with Return x => x | Raise _ => [] end))
    in H.
  cbv beta iota in H. rewrite <- H. clear H.
  repeat lazymatch goal with
  | |- exists before after, lit "- exam guide: " ++ _ = _ => fail
  | |- exists before after, ?a ++ ?r = _ =>
      refine (@prepend_keeps (lit "- exam guide: ") guide a r _)
  end.
  exists [].
  lazymatch goal with
  | |- exists after, lit "- exam guide: " ++ guide ++ ?r = _ => exists r
  end.
  reflexivity.
Qed.

(** The generate endpoint answers 200 or 500 and nothing else: every
    exception that leaves it is an [HTTPException] with status 500, the
    400s raised in its body included. *)
Theorem generate_answers_200_or_500 :
  forall (W : World) (num_questions : Z)
         (difficulty question_types exam_guide_content additional_info : str)
         (exam_guide_file : option UploadFile) (t : trace),
    (exists exam,
        fst (Main.generate_exam W num_questions difficulty question_types
               exam_guide_content additional_info exam_guide_file t)
        = Return exam)
    \/ (exists detail,
          fst (Main.generate_exam W num_questions difficulty question_types
                 exam_guide_content additional_info exam_guide_file t)
          = Raise (HTTPException 500 detail)).
Proof.
  intros W n d qt guide info file t.
  destruct (Main.generate_exam W n d qt guide info file t) as [[e|exam] t']
    eqn:E.
  - right. destruct (GeneratePath.generate_raises_500 _ _ _ _ _ _ _ _ E)
      as [detail ->].
    exists detail. reflexivity.
  - left. exists exam. reflexivity.
Qed.

(** A text that extraction returns always reaches the generation step:
    [read_file] returns no blank text, so the check for empty content that
    follows it cannot fire on an uploaded file. *)
Theorem extracted_text_reaches_generation :
  forall (W : World) (num_questions : Z)
         (difficulty question_types exam_guide_content additional_info : str)
         (v : json) (file : UploadFile) (name final_content : str)
         (t t1 : trace),
    json_loads W question_types = Return v ->
    truthy exam_guide_content = false ->
    filename file = Some name -> truthy name = true ->
    supported W name = true ->
    FileService.read_file W file t = (Return final_content, t1) ->
    Main.generate_exam W num_questions difficulty question_types
      exam_guide_content additional_info (Some file) t =
      answer_from W num_questions difficulty additional_info v
        final_content t1.
Proof.
  intros W n d qt guide info v file name c t t1 Hj Hc Hn Ht Hs Hr.
  apply (@GeneratePath.generate_after_extraction W n d qt guide info v file
           name t t1 c Hj Hc Hn Ht Hs Hr).
  rewrite truthy_strip, (ExtractorFacts.read_file_visible W file t Hr).
  reflexivity.
Qed.

Lemma extracted_text_reaches_generation_witness :
  Main.generate_exam Demo.world 5 (lit "Easy") (lit "[]") [] []
    (Some (Demo.upload "guide.txt" (Demo.ascii_bytes "Chapter one"))) [] =
  answer_from Demo.world 5 (lit "Easy") [] (JArr []) (lit "Chapter one")
    [ReadFileCalled (Some (lit "guide.txt")); FileClosed].
Proof.
  apply (@extracted_text_reaches_generation Demo.world 5 (lit "Easy")
           (lit "[]") [] [] (JArr [])
           (Demo.upload "guide.txt" (Demo.ascii_bytes "Chapter one"))
           (lit "guide.txt") (lit "Chapter one") []
           [ReadFileCalled (Some (lit "guide.txt")); FileClosed]
           eq_refl eq_refl eq_refl eq_refl eq_refl eq_refl).
Defined.

(** The two late checks of the body share the fate of the early ones: an
    inline guide of white space only, and an upload without a file name,
    each raise a 400 that the last [except] clause turns into a 500;
    neither extraction nor the model is called. *)
Theorem late_checks_answer_500 :
  forall (W : World) (num_questions : Z)
         (difficulty question_types exam_guide_content additional_info : str)
         (v : json) (t : trace),
    json_loads W question_types = Return v ->
    (truthy exam_guide_content = true ->
     forallb isspace exam_guide_content = true ->
     Main.generate_exam W num_questions difficulty question_types
       exam_guide_content additional_info None t =
       (Raise (HTTPException 500
                 (lit "An unexpected error occurred while processing the request: 400: No content found to generate exam from.")),
        t))
    /\ (forall file,
          truthy exam_guide_content = false ->
          Main.has_filename file = false ->
          Main.generate_exam W num_questions difficulty question_types
            exam_guide_content additional_info (Some file) t =
            (Raise (HTTPException 500
                      (lit "An unexpected error occurred while processing the request: 400: File must have a filename with extension.")),
             t)).
Proof.
  intros W n d qt guide info v t Hj. split.
  - intros Hc Hb.
    assert (Hs : truthy (strip guide) = false)
      by (rewrite truthy_strip, Hb; reflexivity).
    unfold Main.generate_exam, try_except, bind, lift, Main.raise_if.
    rewrite Hj, Hc. cbn [negb orb andb ret Main.present].
    rewrite Hc, Hs. reflexivity.
  - intros file Hc Hf.
    unfold Main.generate_exam, try_except, bind, lift, Main.raise_if.
    rewrite Hj, Hc, Hf. reflexivity.
Qed.

Lemma late_checks_answer_500_witness :
  Http.status_of
    (fst (Main.generate_exam Demo.world 5 (lit "Easy") (lit "[]")
            (lit "   ") [] None [])) = 500%Z
  /\ snd (Main.generate_exam Demo.world 5 (lit "Easy") (lit "[]")
            (lit "   ") [] None []) = [].
Proof.
  rewrite (proj1 (@late_checks_answer_500 Demo.world 5 (lit "Easy")
                    (lit "[]") (lit "   ") [] (JArr []) [] eq_refl)
             eq_refl eq_refl).
  split; reflexivity.
Defined.

(** A [question_types] field that is valid JSON of the wrong shape (a
    number, say) is not refused as input: the prompt builder fails inside
    the generation client, the model is not called, and the endpoint
    answers 500 with a detail that blames the Gemini call. *)
Theorem wrong_shape_is_blamed_on_the_model :
  forall (W : World) (num_questions : Z)
         (difficulty question_types exam_guide_content additional_info : str)
         (v : json) (t : trace),
    json_loads W question_types = Return v ->
    forallb isspace exam_guide_content = false ->
    joinable v = false ->
    exists msg,
      Main.generate_exam W num_questions difficulty question_types
        exam_guide_content additional_info None t =
        (Raise (HTTPException 500
                  (lit "Error generating exam from Gemini: An unexpected error occurred during Gemini API call: "
                   ++ msg)),
         t).
Proof.
  intros W n d qt guide info v t Hj Hv Hshape.
  assert (Hs : truthy (strip guide) = true)
    by (rewrite truthy_strip, Hv; reflexivity).
  rewrite (@GeneratePath.generate_inline W n d qt guide info v t Hj Hs).
  unfold answer_from.
  destruct (GeminiService.build_prompt n d v guide info) as [e|p] eqn:E.
  - rewrite (@gemini_without_prompt W n d v guide info e t E).
    exists (str_of_exn e). unfold surfaced. cbn [str_of_exn].
    reflexivity.
  - exfalso.
    assert (J : joinable v = true)
      by (apply (build_prompt_joinable n d v guide info); eexists; exact E).
    congruence.
Qed.

Lemma wrong_shape_is_blamed_on_the_model_witness :
  exists msg,
    Main.generate_exam number_world 5 (lit "Easy") (lit "5")
      (lit "Chapter one") [] None [] =
      (Raise (HTTPException 500
                (lit "Error generating exam from Gemini: An unexpected error occurred during Gemini API call: "
                 ++ msg)),
       []).
Proof.
  apply (@wrong_shape_is_blamed_on_the_model number_world 5 (lit "Easy")
           (lit "5") (lit "Chapter one") [] (JNum (lit "5")) []
           eq_refl eq_refl eq_refl).
Defined.

(** A well-formed inline request calls the model exactly once, whatever
    the model answers, with the prompt built from the parsed question
    types and from the guide text as it was sent, neither stripped nor
    shortened. *)
Theorem inline_request_calls_the_model_once :
  forall (W : World) (num_questions : Z)
         (difficulty question_types exam_guide_content additional_info : str)
         (v : json) (prompt : str) (t : trace),
    json_loads W question_types = Return v ->
    forallb isspace exam_guide_content = false ->
    GeminiService.build_prompt num_questions difficulty v exam_guide_content
      additional_info = Return prompt ->
    snd (Main.generate_exam W num_questions difficulty question_types
           exam_guide_content additional_info None t) =
      t ++ [GeminiCalled prompt]
    /\ exists before after,
         prompt = before ++ lit "- exam guide: " ++ exam_guide_content
                         ++ after.
Proof.
  intros W n d qt guide info v prompt t Hj Hv Hp.
  assert (Hs : truthy (strip guide) = true)
    by (rewrite truthy_strip, Hv; reflexivity).
  split; [|exact (build_prompt_quotes_guide _ _ _ _ _ Hp)].
  rewrite (@GeneratePath.generate_inline W n d qt guide info v t Hj Hs).
  unfold answer_from.
  rewrite (@gemini_with_prompt W n d v guide info prompt t Hp).
  destruct (generate_content W prompt) as [e|response].
  - destruct e; reflexivity.
  - destruct (parsed response) as [x|]; [|reflexivity].
    destruct (model_validate W x); reflexivity.
Qed.

Lemma inline_request_calls_the_model_once_witness :
  List.length
    (snd (Main.generate_exam Demo.world 2 (lit "Easy") (lit "[]")
            (lit " Chapter one ") [] None [])) = 1%nat.
Proof.
  rewrite (proj1 (@inline_request_calls_the_model_once Demo.world 2
                    (lit "Easy") (lit "[]") (lit " Chapter one ") []
                    (JArr [])
                    (match GeminiService.build_prompt 2 (lit "Easy") (JArr [])
                             (lit " Chapter one ") [] with
                     | Return p => p
                     | Raise _ => []
                     end)
                    [] eq_refl eq_refl eq_refl)).
  reflexivity.
Defined.

(** What the client reads after a failed call: an error of the provider
    API keeps its status and message behind two prefixes, and a response
    without parsed content is reported as empty or unparseable; both are
    500s, and the model has been called once. *)
Theorem provider_failures_keep_their_text :
  forall (W : World) (num_questions : Z)
         (difficulty question_types exam_guide_content additional_info : str)
         (v : json) (prompt : str) (t : trace),
    json_loads W question_types = Return v ->
    forallb isspace exam_guide_content = false ->
    GeminiService.build_prompt num_questions difficulty v exam_guide_content
      additional_info = Return prompt ->
    (forall code message,
        generate_content W prompt = Raise (APIError code message) ->
        Main.generate_exam W num_questions difficulty question_types
          exam_guide_content additional_info None t =
          (Raise (HTTPException 500
                    (lit "Error generating exam from Gemini: Gemini API error occurred (status "
                     ++ str_of_int code ++ lit "): " ++ message)),
           t ++ [GeminiCalled prompt]))
    /\ (forall response,
          generate_content W prompt = Return response ->
          parsed response = None ->
          Main.generate_exam W num_questions difficulty question_types
            exam_guide_content additional_info None t =
            (Raise (HTTPException 500
                      (lit "An unexpected error occurred while processing the request: 500: Gemini API returned an empty or unparseable response.")),
             t ++ [GeminiCalled prompt]))
    /\ (forall response x exam,
          generate_content W prompt = Return response ->
          parsed response = Some x ->
          model_validate W x = Return exam ->
          Main.generate_exam W num_questions difficulty question_types
            exam_guide_content additional_info None t =
            (Return exam, t ++ [GeminiCalled prompt])).
Proof.
  intros W n d qt guide info v prompt t Hj Hv Hp.
  assert (Hs : truthy (strip guide) = true)
    by (rewrite truthy_strip, Hv; reflexivity).
  pose proof (@GeneratePath.generate_inline W n d qt guide info v t Hj Hs)
    as Hg.
  unfold answer_from in Hg.
  rewrite (@gemini_with_prompt W n d v guide info prompt t Hp) in Hg.
  split; [|split].
  - intros code message Hc. rewrite Hg, Hc. unfold surfaced.
    cbn [str_of_exn]. reflexivity.
  - intros response Hc Hn. rewrite Hg, Hc, Hn. reflexivity.
  - intros response x exam Hc Hx He. rewrite Hg, Hc, Hx, He. reflexivity.
Qed.

Lemma provider_failures_keep_their_text_witness :
  fst (Main.generate_exam broken_world 2 (lit "Easy") (lit "[]")
         (lit "Chapter one") [] None []) =
    Raise (HTTPException 500
             (lit "Error generating exam from Gemini: Gemini API error occurred (status 429): quota exceeded")).
Proof.
  rewrite (proj1 (@provider_failures_keep_their_text broken_world 2
                    (lit "Easy") (lit "[]") (lit "Chapter one") [] (JArr [])
                    (match GeminiService.build_prompt 2 (lit "Easy") (JArr [])
                             (lit "Chapter one") [] with
                     | Return p => p
                     | Raise _ => []
                     end)
                    [] eq_refl eq_refl eq_refl)
             429%Z (lit "quota exceeded") eq_refl).
  reflexivity.
Defined.

End EndpointFacts.
